(** * mysql-mcp-server: the SQL dispatcher and the resource lister

    A shallow embedding of [src/mysql_mcp_server/server.py]:
    [get_db_config], [list_resources] and [call_tool].

    A Python [str] is a Rocq string, one character a code point, so the
    model covers the texts whose code points are at most U+00FF; on these
    [str.strip], [str.upper], [int] and [repr] are those of Python (the
    upper-cased text, which can hold two code points above U+00FF, is a
    list of code points).  The database driver (pymysql) and the process
    environment are outside the repository: they are a [World] record
    that answers each driver call, and every theorem quantifies over it.
    Each driver call is recorded in a trace.  Logging is not modelled.
    Exceptions are instances of [Exception]; the interpreter's signals
    that are not ([KeyboardInterrupt], [SystemExit]) are not modelled. *)

From Stdlib Require Import ZArith List Ascii String DecimalString.
From stdpp Require Import gmap strings.

Local Open Scope Z_scope.

(** ** Python built-ins on strings *)

Module Py.

Definition nl : string := String (ascii_of_nat 10) EmptyString.

(** [str.isspace] on one character: TAB, LF, VT, FF, CR, the four
    separators FS GS RS US, SPACE, and above ASCII the next-line
    character U+0085 and the no-break space U+00A0. *)
Definition is_space (c : ascii) : bool :=
  let n := nat_of_ascii c in
  ((9 <=? n) && (n <=? 13) || (28 <=? n) && (n <=? 32) || (n =? 133) || (n =? 160))%nat.

Fixpoint lstrip (s : string) : string :=
  match s with
  | EmptyString => EmptyString
  | String c s' => if is_space c then lstrip s' else s
  end.

Fixpoint rstrip (s : string) : string :=
  match s with
  | EmptyString => EmptyString
  | String c s' =>
      match rstrip s' with
      | EmptyString => if is_space c then EmptyString else String c EmptyString
      | r => String c r
      end
  end.

(** [s.strip()] *)
Definition strip (s : string) : string := rstrip (lstrip s).

(** The code points of a text. *)
Fixpoint codepoints (s : string) : list N :=
  match s with
  | EmptyString => []
  | String c s' => N_of_ascii c :: codepoints s'
  end.

(** The upper case of one character, as code points: the letters a to z
    and the lower-case letters of U+00E0 to U+00FE lose 32; the sharp s
    U+00DF gives SS; the micro sign U+00B5 and the y with diaeresis
    U+00FF give U+039C and U+0178, which lie above U+00FF. *)
Definition upper_char (c : ascii) : list N :=
  let n := N_of_ascii c in
  (if (97 <=? n) && (n <=? 122) then [n - 32]
   else if n =? 181 then [924]
   else if n =? 223 then [83; 83]
   else if n =? 255 then [376]
   else if (224 <=? n) && (n <=? 254) && negb (n =? 247) then [n - 32]
   else [n])%N.

(** [s.upper()], as code points *)
Fixpoint upper (s : string) : list N :=
  match s with
  | EmptyString => []
  | String c s' => upper_char c ++ upper s'
  end.

(** [s.startswith(p)], for an upper-cased text s and a literal p *)
Fixpoint startswith (s : list N) (p : string) {struct p} : bool :=
  match p with
  | EmptyString => true
  | String a p' =>
      match s with
      | [] => false
      | n :: s' => (n =? N_of_ascii a)%N && startswith s' p'
      end
  end.

(** [sep.join(l)] on a list of [str] *)
Fixpoint join (sep : string) (l : list string) : string :=
  match l with
  | [] => EmptyString
  | [x] => x
  | x :: l' => x +:+ sep +:+ join sep l'
  end.

(** [s * n] on an [int] n: empty when n is not positive *)
Fixpoint repeat_nat (s : string) (n : nat) : string :=
  match n with
  | O => EmptyString
  | S n' => s +:+ repeat_nat s n'
  end.

Definition repeat (s : string) (n : Z) : string := repeat_nat s (Z.to_nat n).

(** [len(s)] *)
Definition len (s : string) : Z := Z.of_nat (String.length s).

(** [str(n)] on an [int] *)
Definition str_int (n : Z) : string := NilZero.string_of_int (Z.to_int n).

(** [all(s.isspace())] over the characters of s *)
Fixpoint all_space (s : string) : bool :=
  match s with
  | EmptyString => true
  | String c s' => is_space c && all_space s'
  end.

Definition is_digit (c : ascii) : bool :=
  let n := nat_of_ascii c in ((48 <=? n) && (n <=? 57))%nat.

Definition digit_val (c : ascii) : Z := Z.of_nat (nat_of_ascii c) - 48.

(** The whitespace [int()] skips around a literal: TAB, LF, VT, FF, CR
    and SPACE, and above ASCII U+0085 and U+00A0; the separators FS GS RS
    US are not skipped. *)
Definition is_int_space (c : ascii) : bool :=
  let n := nat_of_ascii c in
  ((9 <=? n) && (n <=? 13) || (n =? 32) || (n =? 133) || (n =? 160))%nat.

Fixpoint int_lstrip (s : string) : string :=
  match s with
  | EmptyString => EmptyString
  | String c s' => if is_int_space c then int_lstrip s' else s
  end.

Fixpoint int_rstrip (s : string) : string :=
  match s with
  | EmptyString => EmptyString
  | String c s' =>
      match int_rstrip s' with
      | EmptyString => if is_int_space c then EmptyString else String c EmptyString
      | r => String c r
      end
  end.

(** The digits at the start of a literal: decimal digits, with single
    underscores allowed between two digits.  Gives the value, the number
    of digits and what follows them; [None] when there is no digit, or
    an underscore is not between two digits. *)
Fixpoint int_scan (s : string) (acc : Z) (digits : N) (after_digit : bool)
  : option (Z * N * string) :=
  match s with
  | EmptyString => if after_digit then Some (acc, digits, EmptyString) else None
  | String c s' =>
      if is_digit c then int_scan s' (10 * acc + digit_val c) (digits + 1) true
      else if Ascii.eqb c "_"%char
           then (if after_digit then int_scan s' acc digits false else None)
           else (if after_digit then Some (acc, digits, s) else None)
  end.

Inductive int_result :=
| IntOk (n : Z)
| IntInvalid
| IntTooLong (digits : N).

(** The limit on the digits of a literal that [int()] converts
    ([sys.get_int_max_str_digits()], by default). *)
Definition int_max_str_digits : N := 4300.

(** [int(s)] in base 10: surrounding whitespace, an optional sign, the
    digits.  More digits than the limit are refused before what follows
    them is looked at. *)
Definition int_parse (s : string) : int_result :=
  let body := int_rstrip (int_lstrip s) in
  let '(negative, d) :=
    match body with
    | String "-"%char d => (true, d)
    | String "+"%char d => (false, d)
    | d => (false, d)
    end in
  match int_scan d 0 0 false with
  | None => IntInvalid
  | Some (v, digits, rest) =>
      if (int_max_str_digits <? digits)%N then IntTooLong digits
      else match rest with
           | EmptyString => IntOk (if negative then - v else v)
           | _ => IntInvalid
           end
  end.

(** [int(s)]; [None] stands for its [ValueError]. *)
Definition int_of_str (s : string) : option Z :=
  match int_parse s with
  | IntOk n => Some n
  | _ => None
  end.

Definition hex_digit (n : nat) : ascii :=
  if (n <? 10)%nat then ascii_of_nat (48 + n) else ascii_of_nat (87 + n).

Definition dquote : ascii := ascii_of_nat 34.
Definition squote : ascii := ascii_of_nat 39.
Definition bslash : ascii := ascii_of_nat 92.

Fixpoint contains (c : ascii) (s : string) : bool :=
  match s with
  | EmptyString => false
  | String d s' => Ascii.eqb c d || contains c s'
  end.

(** A character [repr] writes as an escape: the control characters, DEL,
    U+0080 to U+00A0 and the soft hyphen U+00AD. *)
Definition is_unprintable (c : ascii) : bool :=
  let n := nat_of_ascii c in
  ((n <? 32) || (n =? 127) || (128 <=? n) && (n <=? 160) || (n =? 173))%nat.

Definition repr_char (q c : ascii) : string :=
  let n := nat_of_ascii c in
  if Ascii.eqb c bslash then String bslash (String bslash EmptyString)
  else if Ascii.eqb c q then String bslash (String q EmptyString)
  else if (n =? 9)%nat then String bslash "t"
  else if (n =? 10)%nat then String bslash "n"
  else if (n =? 13)%nat then String bslash "r"
  else if is_unprintable c
       then String bslash
              (String "x" (String (hex_digit (n / 16)) (String (hex_digit (n mod 16)) EmptyString)))
  else String c EmptyString.

Fixpoint repr_body (q : ascii) (s : string) : string :=
  match s with
  | EmptyString => EmptyString
  | String c s' => repr_char q c +:+ repr_body q s'
  end.

(** [repr(s)]: single quotes, unless the text holds a single quote and
    no double quote. *)
Definition repr (s : string) : string :=
  let q := if contains squote s && negb (contains dquote s) then dquote else squote in
  String q (repr_body q s) +:+ String q EmptyString.

(** The text of the [ValueError] of [int(s)]; it shows the first 200
    characters of [repr(s)]. *)
Definition int_error (s : string) : string :=
  match int_parse s with
  | IntTooLong digits =>
      "Exceeds the limit (4300 digits) for integer string conversion: value has "
      +:+ str_int (Z.of_N digits)
      +:+ " digits; use sys.set_int_max_str_digits() to increase the limit"
  | _ => "invalid literal for int() with base 10: " +:+ String.substring 0 200 (repr s)
  end.

(** [s.count(c)] for a single character c *)
Fixpoint count (c : ascii) (s : string) : nat :=
  match s with
  | EmptyString => O
  | String d s' => ((if Ascii.eqb c d then 1 else 0) + count c s')%nat
  end.

End Py.

(** ** Values, exceptions and the driver *)

(** The values a row holds.  [str] is Python's [str(value)]. *)
Inductive value :=
| VNone
| VInt (n : Z)
| VStr (s : string).

Definition str (v : value) : string :=
  match v with
  | VNone => "None"
  | VInt n => Py.str_int n
  | VStr s => s
  end.

Definition type_name (v : value) : string :=
  match v with
  | VNone => "NoneType"
  | VInt _ => "int"
  | VStr _ => "str"
  end.

(** A row is a tuple of values. *)
Definition row := list value.

Inductive exn_class := ValueError | TypeError | IndexError | DriverError.

(** An exception: its class and the text [str(e)] gives. *)
Record exn := Exn { exn_class_of : exn_class; exn_str : string }.

(** The configuration dictionary [get_db_config] returns. *)
Record Config := {
  host : string;
  port : Z;
  user : string;
  password : string;
  database : string
}.

(** The cursor after [cursor.execute]: what [fetchall] answers, the
    column names of [cursor.description] (the first component of each
    entry; [None] when the statement has no result set) and
    [cursor.rowcount]. *)
Record Cursor := {
  fetchall_r : exn + list row;
  description : option (list string);
  rowcount : Z
}.

(** Everything outside the repository that one request depends on. *)
Record World := {
  environ : gmap string string;
  connect_r : Config -> option exn;
  execute_r : string -> exn + Cursor;
  commit_r : option exn;
  cursor_close_r : option exn;
  conn_close_r : option exn;
  (** the validation [types.Resource] runs on a uri *)
  resource_r : string -> option exn
}.

Inductive event :=
| EvConnect (cfg : Config)
| EvExecute (q : string)
| EvFetchall
| EvCommit
| EvCursorClose
| EvConnClose.

Record TextContent := { type_ : string; text : string }.

Record Resource := {
  uri : string;
  name : string;
  mimeType : string;
  description_ : string
}.

(** A JSON argument of a tool call, as the tool's input schema types the
    field [query]: a string, or null. *)
Inductive arg := ANull | AStr (s : string).

(** ** Computations: a trace of driver calls and an outcome *)

Inductive outcome (A : Type) :=
| Ret (a : A)
| Raise (e : exn).
Arguments Ret {A} a.
Arguments Raise {A} e.

Definition M (A : Type) : Type := list event -> outcome A * list event.

Definition ret {A} (a : A) : M A := fun t => (Ret a, t).
Definition raise {A} (e : exn) : M A := fun t => (Raise e, t).
Definition bind {A B} (m : M A) (k : A -> M B) : M B :=
  fun t => match m t with
           | (Ret a, t') => k a t'
           | (Raise e, t') => (Raise e, t')
           end.
Definition emit (ev : event) : M unit := fun t => (Ret tt, t ++ [ev]).
Definition lift {A} (o : outcome A) : M A := fun t => (o, t).

Global Instance M_ret : MRet M := @ret.
Global Instance M_bind : MBind M := fun A B k m => bind m k.

(** [try: body  except Exception as e: handler(e)] *)
Definition try_except {A} (body : M A) (handler : exn -> M A) : M A :=
  fun t => match body t with
           | (Ret a, t') => (Ret a, t')
           | (Raise e, t') => handler e t'
           end.

(** [with ctx: body], for a context manager whose [__exit__] releases
    the object and does not swallow the exception: the release runs on
    every exit path, and an exception of the release replaces the
    outcome of the body. *)
Definition with_ {A} (release : M unit) (body : M A) : M A :=
  fun t => match body t with
           | (o, t') =>
               match release t' with
               | (Ret _, t'') => (o, t'')
               | (Raise e, t'') => (Raise e, t'')
               end
           end.

Definition of_option (r : option exn) : M unit :=
  match r with
  | None => ret tt
  | Some e => raise e
  end.

Definition of_sum {A} (r : exn + A) : M A :=
  match r with
  | inl e => raise e
  | inr a => ret a
  end.

Section Driver.
Variable W : World.

(** [pymysql.connect], called with the configuration *)
Definition connect (config : Config) : M unit :=
  emit (EvConnect config);; of_option (connect_r W config).

(** [cursor.execute(query)] *)
Definition execute (query : string) : M Cursor :=
  emit (EvExecute query);; of_sum (execute_r W query).

(** [conn.commit()] *)
Definition commit : M unit := emit EvCommit;; of_option (commit_r W).

Definition cursor_close : M unit := emit EvCursorClose;; of_option (cursor_close_r W).
Definition conn_close : M unit := emit EvConnClose;; of_option (conn_close_r W).
End Driver.

(** [cursor.fetchall()] *)
Definition fetchall (cur : Cursor) : M (list row) :=
  emit EvFetchall;; of_sum (fetchall_r cur).

Fixpoint mapM {A B} (f : A -> M B) (l : list A) : M (list B) :=
  match l with
  | [] => mret []
  | x :: l' => y ← f x; ys ← mapM f l'; mret (y :: ys)
  end.

(** ** [get_db_config] *)

(** Python truth of [os.getenv(k)]: false for [None] and for the empty
    string. *)
Definition truthy (o : option string) : bool :=
  match o with
  | Some (String _ _) => true
  | _ => false
  end.

Definition get_db_config (env : gmap string string) : outcome Config :=
  let host_ := default "localhost" (env !! "MYSQL_HOST") in
  let port_s := default "3306" (env !! "MYSQL_PORT") in
  match Py.int_of_str port_s with
  | None => Raise (Exn ValueError (Py.int_error port_s))
  | Some port_ =>
      match env !! "MYSQL_USER", env !! "MYSQL_PASSWORD", env !! "MYSQL_DATABASE" with
      | Some u, Some p, Some d =>
          if negb (truthy (Some u) && truthy (Some p) && truthy (Some d))
          then Raise (Exn ValueError "Missing required database configuration")
          else Ret {| host := host_; port := port_; user := u; password := p; database := d |}
      | _, _, _ => Raise (Exn ValueError "Missing required database configuration")
      end
  end.

(** ** [list_resources] *)

(** [t[0]] on a tuple *)
Definition index0 (t : row) : outcome value :=
  match t with
  | v :: _ => Ret v
  | [] => Raise (Exn IndexError "tuple index out of range")
  end.

Definition make_resource (W : World) (table : row) : M Resource :=
  t0 ← lift (index0 table);
  let u := "mysql://" +:+ str t0 +:+ "/data" in
  of_option (resource_r W u);;
  mret {| uri := u;
          name := "Table: " +:+ str t0;
          mimeType := "text/plain";
          description_ := "Data in table: " +:+ str t0 |}.

Definition list_resources_body (W : World) (config : Config) : M (list Resource) :=
  connect W config;;
  with_ (conn_close W)
    (with_ (cursor_close W)
       (cursor ← execute W "SHOW TABLES";
        tables ← fetchall cursor;
        mapM (make_resource W) tables)).

Definition list_resources (W : World) : M (list Resource) :=
  config ← lift (get_db_config (environ W));
  try_except (list_resources_body W config) (fun _ => mret []).

(** ** [call_tool] *)

Definition text_content (s : string) : TextContent := {| type_ := "text"; text := s |}.

Definition sum_Z (l : list Z) : Z := foldr Z.add 0 l.

(** The tabular text: the header, the rule of dashes, one line a row.
    [call_tool] has this block four times, the same but for the names of
    the loop variables. *)
Definition header_line (field_names : list string) : string :=
  Py.join " | " field_names.

Definition rule_width (field_names : list string) : Z :=
  sum_Z (map Py.len field_names) + 3 * (Z.of_nat (List.length field_names) - 1).

Definition rule_line (field_names : list string) : string :=
  Py.repeat "-" (rule_width field_names).

Definition data_line (r : row) : string := Py.join " | " (map str r).

Definition format_table (field_names : list string) (rows : list row) : string :=
  Py.join Py.nl (header_line field_names :: rule_line field_names :: map data_line rows).

(** The newlines inside the strings of a list. *)
Definition newlines_in (l : list string) : nat :=
  list_sum (map (Py.count (ascii_of_nat 10)) l).

(** [[i[0] for i in cursor.description]] *)
Definition field_names_of (cursor : Cursor) : outcome (list string) :=
  match description cursor with
  | Some names => Ret names
  | None => Raise (Exn TypeError "'NoneType' object is not iterable")
  end.

Definition tabulate (cursor : Cursor) (rows : list row) : M (list TextContent) :=
  field_names ← lift (field_names_of cursor);
  mret [text_content (format_table field_names rows)].

Fixpoint first_non_str (i : Z) (l : list value) : option (Z * value) :=
  match l with
  | [] => None
  | VStr _ :: l' => first_non_str (i + 1) l'
  | v :: _ => Some (i, v)
  end.

(** [sep.join(l)] on a list that may hold values that are not [str] *)
Definition join_values (sep : string) (l : list value) : outcome string :=
  match first_non_str 0 l with
  | Some (i, v) =>
      Raise (Exn TypeError ("sequence item " +:+ Py.str_int i
                            +:+ ": expected str instance, " +:+ type_name v +:+ " found"))
  | None => Ret (Py.join sep (map str l))
  end.

(** A header line, then the first column of every row. *)
Definition listing (header : string) (rows : list row) : M (list TextContent) :=
  firsts ← mapM (fun r => lift (index0 r)) rows;
  s ← lift (join_values Py.nl (VStr header :: firsts));
  mret [text_content s].

Section Branches.
Variable W : World.
Variable config : Config.
Variable cursor : Cursor.

Definition branch_show_tables : M (list TextContent) :=
  tables ← fetchall cursor;
  listing (database config +:+ " tables:") tables.

Definition branch_select : M (list TextContent) :=
  rows ← fetchall cursor;
  match rows with
  | [] => mret [text_content "Query executed successfully. No results returned."]
  | _ => tabulate cursor rows
  end.

Definition branch_show_databases : M (list TextContent) :=
  databases ← fetchall cursor;
  listing "Available databases:" databases.

Definition branch_describe : M (list TextContent) :=
  columns ← fetchall cursor;
  match columns with
  | [] => mret [text_content "No columns found or table doesn't exist."]
  | _ => tabulate cursor columns
  end.

Definition branch_show_columns : M (list TextContent) :=
  columns ← fetchall cursor;
  match columns with
  | [] => mret [text_content "No columns found or table doesn't exist."]
  | _ => tabulate cursor columns
  end.

Definition branch_dml : M (list TextContent) :=
  let affected_rows := rowcount cursor in
  commit W;;
  mret [text_content ("Query executed successfully. Affected rows: "
                      +:+ Py.str_int affected_rows)].

Definition branch_ddl : M (list TextContent) :=
  commit W;;
  mret [text_content "DDL statement executed successfully."].

Definition branch_other : M (list TextContent) :=
  try_except
    (rows ← fetchall cursor;
     match rows with
     | [] => mret [text_content "Query executed successfully. No results returned."]
     | _ => tabulate cursor rows
     end)
    (fun _ => commit W;; mret [text_content "Query executed successfully."]).

(** The chain of [if]/[elif] on [query_upper]. *)
Definition dispatch (query : string) : M (list TextContent) :=
  let query_upper := Py.upper (Py.strip query) in
  if Py.startswith query_upper "SHOW TABLES" then branch_show_tables
  else if Py.startswith query_upper "SELECT" then branch_select
  else if Py.startswith query_upper "SHOW DATABASES" then branch_show_databases
  else if Py.startswith query_upper "DESCRIBE" || Py.startswith query_upper "DESC"
  then branch_describe
  else if Py.startswith query_upper "SHOW COLUMNS" then branch_show_columns
  else if existsb (Py.startswith query_upper) ["INSERT"; "UPDATE"; "DELETE"]
  then branch_dml
  else if existsb (Py.startswith query_upper) ["CREATE"; "ALTER"; "DROP"; "TRUNCATE"]
  then branch_ddl
  else branch_other.
End Branches.

(** The body of the [try] of [call_tool]. *)
Definition call_tool_body (W : World) (config : Config) (query : string)
  : M (list TextContent) :=
  connect W config;;
  with_ (conn_close W)
    (with_ (cursor_close W)
       (cursor ← execute W query;
        dispatch W config cursor query)).

Definition call_tool (W : World) (name : string) (arguments : gmap string arg)
  : M (list TextContent) :=
  config ← lift (get_db_config (environ W));
  if negb (String.eqb name "execute_sql")
  then raise (Exn ValueError ("Unknown tool: " +:+ name))
  else
    match default ANull (arguments !! "query") with
    | ANull | AStr EmptyString => raise (Exn ValueError "Query is required")
    | AStr query =>
        try_except (call_tool_body W config query)
          (fun e => mret [text_content ("Error executing query: " +:+ exn_str e)])
    end.

(** A request starts with an empty trace. *)
Definition run {A} (m : M A) : outcome A * list event := m [].

(** ** Statement categories *)

Inductive category :=
| ShowTables | Select | ShowDatabases | Describe | ShowColumns | Dml | Ddl | Other.

(** The category [dispatch] settles on: its chain of tests, with the
    branch bodies left out. *)
Definition classify (query_upper : list N) : category :=
  if Py.startswith query_upper "SHOW TABLES" then ShowTables
  else if Py.startswith query_upper "SELECT" then Select
  else if Py.startswith query_upper "SHOW DATABASES" then ShowDatabases
  else if Py.startswith query_upper "DESCRIBE" || Py.startswith query_upper "DESC"
  then Describe
  else if Py.startswith query_upper "SHOW COLUMNS" then ShowColumns
  else if existsb (Py.startswith query_upper) ["INSERT"; "UPDATE"; "DELETE"] then Dml
  else if existsb (Py.startswith query_upper) ["CREATE"; "ALTER"; "DROP"; "TRUNCATE"] then Ddl
  else Other.

Definition branch (W : World) (config : Config) (cursor : Cursor) (c : category)
  : M (list TextContent) :=
  match c with
  | ShowTables => branch_show_tables config cursor
  | Select => branch_select cursor
  | ShowDatabases => branch_show_databases cursor
  | Describe => branch_describe cursor
  | ShowColumns => branch_show_columns cursor
  | Dml => branch_dml W cursor
  | Ddl => branch_ddl W
  | Other => branch_other W cursor
  end.

(** The table of prefixes of the specification, its rows in their order. *)
Definition prefix_table : list (list string * category) :=
  [ (["SHOW TABLES"], ShowTables);
    (["SELECT"], Select);
    (["SHOW DATABASES"], ShowDatabases);
    (["DESCRIBE"; "DESC"], Describe);
    (["SHOW COLUMNS"], ShowColumns);
    (["INSERT"; "UPDATE"; "DELETE"], Dml);
    (["CREATE"; "ALTER"; "DROP"; "TRUNCATE"], Ddl) ].

(** The table read with the prefix test of the program: the first row
    with a matching prefix, the generic fallback when no row matches. *)
Definition classify_table (text_ : list N) : category :=
  match find (fun entry => existsb (Py.startswith text_) (fst entry)) prefix_table with
  | Some entry => snd entry
  | None => Other
  end.

(** *** The classification in the words of the specification

    "The query text is trimmed, upper-cased, and matched by prefix
    against this table, evaluated in order, first match wins."  Each
    notion is stated here on its own, without the functions the program
    is modelled with. *)

(** The whitespace characters, by their code points. *)
Definition whitespace_codes : list nat :=
  [9; 10; 11; 12; 13; 28; 29; 30; 31; 32; 133; 160]%nat.

Definition whitespace (c : ascii) : Prop := In (nat_of_ascii c) whitespace_codes.

(** A text of whitespace only. *)
Inductive blank : string -> Prop :=
| blank_nil : blank EmptyString
| blank_cons c s : whitespace c -> blank s -> blank (String c s).

(** [core] is [query] trimmed of surrounding whitespace: the query is
    whitespace, then [core], then whitespace, and [core] neither starts
    nor ends with a whitespace character. *)
Definition trimmed (query core : string) : Prop :=
  exists before after,
    query = before +:+ core +:+ after
    /\ blank before /\ blank after
    /\ (forall c rest, core = String c rest -> ~ whitespace c)
    /\ (forall front c, core = front +:+ String c EmptyString -> ~ whitespace c).

(** The characters that have an upper case, each with the code points
    of it. *)
Definition upper_case_table : list (N * list N) :=
  [
    (97, [65]); (98, [66]); (99, [67]); (100, [68]); (101, [69]); (102, [70]);
    (103, [71]); (104, [72]); (105, [73]); (106, [74]); (107, [75]); (108, [76]);
    (109, [77]); (110, [78]); (111, [79]); (112, [80]); (113, [81]); (114, [82]);
    (115, [83]); (116, [84]); (117, [85]); (118, [86]); (119, [87]); (120, [88]);
    (121, [89]); (122, [90]); (181, [924]); (223, [83; 83]); (224, [192]); (225, [193]);
    (226, [194]); (227, [195]); (228, [196]); (229, [197]); (230, [198]); (231, [199]);
    (232, [200]); (233, [201]); (234, [202]); (235, [203]); (236, [204]); (237, [205]);
    (238, [206]); (239, [207]); (240, [208]); (241, [209]); (242, [210]); (243, [211]);
    (244, [212]); (245, [213]); (246, [214]); (248, [216]); (249, [217]); (250, [218]);
    (251, [219]); (252, [220]); (253, [221]); (254, [222]); (255, [376]) ]%N.

Definition upper_cased_char (c : ascii) : list N :=
  match find (fun entry => (fst entry =? N_of_ascii c)%N) upper_case_table with
  | Some entry => snd entry
  | None => [N_of_ascii c]
  end.

(** The text upper-cased, character by character. *)
Fixpoint upper_cased (s : string) : list N :=
  match s with
  | EmptyString => []
  | String c s' => upper_cased_char c ++ upper_cased s'
  end.

(** The text starts with the literal [p]. *)
Definition has_prefix (text_ : list N) (p : string) : Prop :=
  exists rest, text_ = Py.codepoints p ++ rest.

(** The first row of a table with a prefix the text starts with gives
    the category; the generic fallback when no row has one. *)
Inductive first_match : list (list string * category) -> list N -> category -> Prop :=
| first_match_none text_ :
    first_match [] text_ Other
| first_match_here prefixes c rows text_ p :
    In p prefixes -> has_prefix text_ p ->
    first_match ((prefixes, c) :: rows) text_ c
| first_match_later prefixes c rows text_ c' :
    (forall p, In p prefixes -> ~ has_prefix text_ p) ->
    first_match rows text_ c' ->
    first_match ((prefixes, c) :: rows) text_ c'.

(** ** The releases *)

(** What the two releases leave of an outcome: an exception of a release
    replaces it, the connection's over the cursor's. *)
Definition released {A} (W : World) (o : outcome A) : outcome A :=
  match conn_close_r W with
  | Some e => Raise e
  | None => match cursor_close_r W with
            | Some e => Raise e
            | None => o
            end
  end.


(** ** Requests *)

(** The [query] argument is absent, null or the empty string. *)
Definition query_missing (arguments : gmap string arg) : Prop :=
  arguments !! "query" = None
  \/ arguments !! "query" = Some ANull
  \/ arguments !! "query" = Some (AStr EmptyString).

(** The exception [call_tool] raises before its [try] for a request that
    fails validation, on a valid configuration. *)
Inductive validation_error (name_ : string) (arguments : gmap string arg) : exn -> Prop :=
| unknown_tool :
    name_ <> "execute_sql" ->
    validation_error name_ arguments (Exn ValueError ("Unknown tool: " +:+ name_))
| query_required :
    name_ = "execute_sql" ->
    query_missing arguments ->
    validation_error name_ arguments (Exn ValueError "Query is required").

(** ** Worlds used as examples *)

Definition env_shop : gmap string string :=
  {[ "MYSQL_USER" := "app"; "MYSQL_PASSWORD" := "secret"; "MYSQL_DATABASE" := "shop" ]}.

Definition config_shop : Config :=
  {| host := "localhost"; port := 3306; user := "app"; password := "secret";
     database := "shop" |}.

(** The table [users] with the rows (1, "a") and (2, "b"). *)
Definition cursor_users : Cursor :=
  {| fetchall_r := inr [[VInt 1; VStr "a"]; [VInt 2; VStr "b"]];
     description := Some ["id"; "name"];
     rowcount := 2 |}.

Definition cursor_empty : Cursor :=
  {| fetchall_r := inr []; description := Some ["id"; "name"]; rowcount := 0 |}.

Definition cursor_no_result_set : Cursor :=
  {| fetchall_r := inl (Exn DriverError "no result set");
     description := None;
     rowcount := 0 |}.

Definition W_shop (cursor : Cursor) : World :=
  {| environ := env_shop;
     connect_r := fun _ => None;
     execute_r := fun _ => inr cursor;
     commit_r := None;
     cursor_close_r := None;
     conn_close_r := None;
     resource_r := fun _ => None |}.

(** The database is unreachable. *)
Definition W_down : World :=
  {| environ := env_shop;
     connect_r := fun _ => Some (Exn DriverError "Can't connect to MySQL server");
     execute_r := fun _ => inr cursor_users;
     commit_r := None;
     cursor_close_r := None;
     conn_close_r := None;
     resource_r := fun _ => None |}.

(** [MYSQL_USER] is not set. *)
Definition W_no_user : World :=
  {| environ := {[ "MYSQL_PASSWORD" := "secret"; "MYSQL_DATABASE" := "shop" ]};
     connect_r := fun _ => None;
     execute_r := fun _ => inr cursor_users;
     commit_r := None;
     cursor_close_r := None;
     conn_close_r := None;
     resource_r := fun _ => None |}.

Definition query_select_users : string := "SELECT id, name FROM users".
Definition query_update_users : string := "update users set name = 'c'".

Definition args_of (query : string) : gmap string arg := {[ "query" := AStr query ]}.

(** The text the specification's end-to-end example writes for
    [query_select_users]: its rule has ten dashes. *)
Definition users_text_ten_dashes : string :=
  "id | name" +:+ Py.nl +:+ "----------" +:+ Py.nl +:+ "1 | a" +:+ Py.nl +:+ "2 | b".

(** The same with a rule of nine dashes. *)
Definition users_text_nine_dashes : string :=
  "id | name" +:+ Py.nl +:+ "---------" +:+ Py.nl +:+ "1 | a" +:+ Py.nl +:+ "2 | b".

(** ** Failures *)

(** The sentence a branch answers an empty result with. *)
Definition no_results_sentence (c : category) : string :=
  match c with
  | Describe | ShowColumns => "No columns found or table doesn't exist."
  | _ => "Query executed successfully. No results returned."
  end.

(** The categories answered with the tabular text without an inner [try]. *)
Definition tabular (c : category) : bool :=
  match c with
  | Select | Describe | ShowColumns => true
  | _ => false
  end.

(** A returned value is one text block; an exception is not constrained. *)
Definition text_or_raise (o : outcome (list TextContent)) : Prop :=
  match o with
  | Ret l => exists s, l = [text_content s]
  | Raise _ => True
  end.

(** The categories whose branch calls [fetchall] outside any inner [try]. *)
Definition fetches_unguarded (c : category) : bool :=
  match c with
  | ShowTables | Select | ShowDatabases | Describe | ShowColumns => true
  | Dml | Ddl | Other => false
  end.

(** The connection, the execution or the fetch of the top-level dispatch
    raises [e] (and, once a connection is open, its release and the
    cursor's do not raise in turn). *)
Inductive dispatch_raises (W : World) (config : Config) (query : string) : exn -> Prop :=
| connection_raises e :
    connect_r W config = Some e ->
    dispatch_raises W config query e
| execution_raises e :
    connect_r W config = None ->
    execute_r W query = inl e ->
    cursor_close_r W = None -> conn_close_r W = None ->
    dispatch_raises W config query e
| fetch_raises cursor e :
    connect_r W config = None ->
    execute_r W query = inr cursor ->
    fetches_unguarded (classify (Py.upper (Py.strip query))) = true ->
    fetchall_r cursor = inl e ->
    cursor_close_r W = None -> conn_close_r W = None ->
    dispatch_raises W config query e.

(** A failure of the listing after the configuration was read: of the
    connection, of the query (its execution or its fetch), or of a
    release. *)
Inductive listing_fails (W : World) (config : Config) : Prop :=
| listing_connection_error e :
    connect_r W config = Some e -> listing_fails W config
| listing_execute_error e :
    connect_r W config = None ->
    execute_r W "SHOW TABLES" = inl e -> listing_fails W config
| listing_fetch_error cursor e :
    connect_r W config = None ->
    execute_r W "SHOW TABLES" = inr cursor ->
    fetchall_r cursor = inl e -> listing_fails W config
| listing_release_error :
    connect_r W config = None ->
    (cursor_close_r W <> None \/ conn_close_r W <> None) -> listing_fails W config.

Definition query_call : string := "CALL refresh_totals()".
Definition query_blank : string := String " " (String (ascii_of_nat 9) (String " " EmptyString)).


(** ** [list_tools] *)

Record SchemaProperty := { prop_type : string; prop_description : string }.

(** The [inputSchema] dictionary of a tool. *)
Record InputSchema := {
  schema_type : string;
  properties : list (string * SchemaProperty);
  required : list string
}.

Record Tool := {
  tool_name : string;
  tool_description : string;
  inputSchema : InputSchema
}.

Definition list_tools : list Tool :=
  let query_tool :=
    {| tool_name := "execute_sql";
       tool_description := "Execute an SQL query on the MySQL server";
       inputSchema :=
         {| schema_type := "object";
            properties :=
              [("query", {| prop_type := "string";
                            prop_description := "The SQL query to execute" |})];
            required := ["query"] |} |} in
  [query_tool].

(** ** Result sets of one column *)

(** The rows of a result set with one column of strings, as the driver
    answers SHOW TABLES and SHOW DATABASES. *)
Definition one_column (names : list string) : list row :=
  map (fun t : string => [VStr t]) names.


(** A row [make_resource] raises on: an empty tuple, or a first column
    whose uri the validation rejects. *)
Definition bad_row (W : World) (r : row) : Prop :=
  match r with
  | [] => True
  | v :: _ => resource_r W ("mysql://" +:+ str v +:+ "/data") <> None
  end.

(** The prefixes of the table, each with its category. *)
Definition keyword_branches : list (string * category) :=
  flat_map (fun entry => map (fun p : string => (p, snd entry)) (fst entry)) prefix_table.

(** Some required variable is unset or empty. *)
Definition missing_required (env : gmap string string) : Prop :=
  truthy (env !! "MYSQL_USER") = false
  \/ truthy (env !! "MYSQL_PASSWORD") = false
  \/ truthy (env !! "MYSQL_DATABASE") = false.

(** More example worlds. *)

Definition cursor_tables : Cursor :=
  {| fetchall_r := inr (one_column ["orders"; "users"]);
     description := Some ["Tables_in_shop"];
     rowcount := 2 |}.

Definition env_remote : gmap string string :=
  {[ "MYSQL_HOST" := "db.internal"; "MYSQL_PORT" := "3307";
     "MYSQL_USER" := "app"; "MYSQL_PASSWORD" := "secret"; "MYSQL_DATABASE" := "shop" ]}.

(** The validation refuses the uri of the table [users]. *)
Definition W_strict : World :=
  {| environ := env_shop;
     connect_r := fun _ => None;
     execute_r := fun _ => inr cursor_tables;
     commit_r := None;
     cursor_close_r := None;
     conn_close_r := None;
     resource_r := fun u => if String.eqb u "mysql://users/data"
                            then Some (Exn ValueError "invalid uri") else None |}.

Definition query_show_tables : string := "show tables".
Definition query_show_databases : string := "SHOW DATABASES;".
Definition query_create : string := "create table t (id int)".

Definition cursor_databases : Cursor :=
  {| fetchall_r := inr (one_column ["information_schema"; "shop"]);
     description := Some ["Database"];
     rowcount := 2 |}.

Definition query_padded_lower : string :=
  String (ascii_of_nat 10) "  select id, name from users ;  ".

(** Two strings differ at a position that both have. *)
Fixpoint clash (p q : string) : bool :=
  match p, q with
  | String a p', String b q' => if Ascii.eqb a b then clash p' q' else true
  | _, _ => false
  end.


(** ** Whitespace on code points *)

Definition is_space_cp (n : N) : bool :=
  ((9 <=? n) && (n <=? 13) || (28 <=? n) && (n <=? 32) || (n =? 133) || (n =? 160))%N.

Fixpoint ulstrip (l : list N) : list N :=
  match l with
  | [] => []
  | n :: l' => if is_space_cp n then ulstrip l' else l
  end.

Fixpoint urstrip (l : list N) : list N :=
  match l with
  | [] => []
  | n :: l' =>
      match urstrip l' with
      | [] => if is_space_cp n then [] else [n]
      | r => n :: r
      end
  end.

(** The code points trimmed of surrounding whitespace. *)
Definition ustrip (l : list N) : list N := urstrip (ulstrip l).

(** ** Responses after the releases *)

(** The text of a response whose body ended with the text [s]: an
    exception of a release replaces it with its error, the connection's
    over the cursor's. *)
Definition release_text (W : World) (s : string) : string :=
  match conn_close_r W with
  | Some e => "Error executing query: " +:+ exn_str e
  | None =>
      match cursor_close_r W with
      | Some e => "Error executing query: " +:+ exn_str e
      | None => s
      end
  end.
(** * Proofs *)

(** ** Python built-ins, on examples *)

Example strip_ex : Py.strip "  select 1 " = "select 1".
Proof. reflexivity. Qed.
Example strip_nbsp_ex :
  Py.strip (String (ascii_of_nat 160) "SELECT 1" +:+ String (ascii_of_nat 133) EmptyString)
  = "SELECT 1".
Proof. reflexivity. Qed.
Example upper_ex : Py.upper "show Tables; x_9" = Py.codepoints "SHOW TABLES; X_9".
Proof. reflexivity. Qed.
Example upper_sharp_s_ex :
  Py.upper (String (ascii_of_nat 223) (String (ascii_of_nat 233) EmptyString))
  = [83; 83; 201]%N.
Proof. reflexivity. Qed.
Example str_int_ex : Py.str_int (-12) = "-12" /\ Py.str_int 0 = "0".
Proof. split; reflexivity. Qed.
Example int_of_str_ex :
  Py.int_of_str " 3_306 " = Some 3306 /\ Py.int_of_str "33_" = None
  /\ Py.int_of_str "-0012" = Some (-12) /\ Py.int_of_str "+ 1" = None
  /\ Py.int_of_str (String (ascii_of_nat 28) "3306") = None.
Proof. repeat split; reflexivity. Qed.
Example int_error_ex :
  Py.int_error "33o6" = "invalid literal for int() with base 10: '33o6'".
Proof. reflexivity. Qed.
Example repr_ex : Py.repr "ab'c" = String Py.dquote "ab'c" +:+ String Py.dquote EmptyString.
Proof. reflexivity. Qed.

(** ** The classifier *)

Lemma dispatch_classify (W : World) (config : Config) (cursor : Cursor) (query : string) :
  dispatch W config cursor query
  = branch W config cursor (classify (Py.upper (Py.strip query))).
Proof.
  unfold dispatch, classify.
  repeat match goal with
         | |- context [if ?b then _ else _] => destruct b; [reflexivity|]
         end.
  reflexivity.
Qed.

Lemma classify_classify_table (text_ : list N) : classify text_ = classify_table text_.
Proof.
  unfold classify, classify_table, prefix_table, find, fst, snd.
  cbn [existsb].
  rewrite !orb_false_r.
  repeat match goal with
         | |- context [if ?b then _ else _] => destruct b; [reflexivity|]
         end.
  reflexivity.
Qed.

(** *** Trimming *)

Ltac unfold_append := cbv [String.append]; fold String.append.
Ltac unfold_append_in H := cbv [String.append] in H; fold String.append in H.

Lemma is_space_existsb (c : ascii) :
  Py.is_space c = existsb (Nat.eqb (nat_of_ascii c)) whitespace_codes.
Proof. destruct c as [[] [] [] [] [] [] [] []]; reflexivity. Qed.

Lemma is_space_whitespace (c : ascii) : Py.is_space c = true <-> whitespace c.
Proof.
  rewrite is_space_existsb, existsb_exists. unfold whitespace. split.
  - intros [n [Hin Heq]]. apply Nat.eqb_eq in Heq. rewrite Heq. exact Hin.
  - intros Hin. exists (nat_of_ascii c). split; [exact Hin | apply Nat.eqb_refl].
Qed.

Lemma is_space_not_whitespace (c : ascii) : Py.is_space c = false <-> ~ whitespace c.
Proof.
  rewrite <- is_space_whitespace. destruct (Py.is_space c); split; congruence.
Qed.

Lemma all_space_blank (s : string) : Py.all_space s = true <-> blank s.
Proof.
  induction s as [|c s IH]; simpl.
  - split; [constructor | reflexivity].
  - rewrite andb_true_iff, IH, is_space_whitespace. split.
    + intros [Hc Hs]. constructor; assumption.
    + intros H. inversion H; subst. split; assumption.
Qed.

Lemma lstrip_all_space (s : string) : Py.all_space s = true -> Py.lstrip s = EmptyString.
Proof.
  induction s as [|c s IH]; simpl; [reflexivity|].
  intros H. apply andb_true_iff in H as [Hc Hs]. rewrite Hc. auto.
Qed.

Lemma lstrip_pad (ws s : string) :
  Py.all_space ws = true -> Py.lstrip (ws +:+ s) = Py.lstrip s.
Proof.
  induction ws as [|c ws IH]; simpl; [reflexivity|].
  intros H. apply andb_true_iff in H as [Hc Hws]. rewrite Hc. auto.
Qed.

Lemma rstrip_all_space (ws : string) : Py.all_space ws = true -> Py.rstrip ws = EmptyString.
Proof.
  induction ws as [|c ws IH]; simpl; [reflexivity|].
  intros H. apply andb_true_iff in H as [Hc Hws]. rewrite (IH Hws), Hc. reflexivity.
Qed.

Lemma rstrip_pad (s ws : string) :
  Py.all_space ws = true -> Py.rstrip (s +:+ ws) = Py.rstrip s.
Proof.
  intros H. induction s as [|c s IH]; simpl.
  - apply rstrip_all_space, H.
  - rewrite IH. reflexivity.
Qed.

Lemma strip_pad_right (s ws : string) :
  Py.all_space ws = true -> Py.strip (s +:+ ws) = Py.strip s.
Proof.
  intros H. unfold Py.strip. induction s as [|c s IH]; simpl.
  - rewrite lstrip_all_space by assumption. reflexivity.
  - destruct (Py.is_space c); [exact IH|].
    apply (rstrip_pad (String c s)), H.
Qed.

Lemma strip_pad (ws1 s ws2 : string) :
  Py.all_space ws1 = true -> Py.all_space ws2 = true ->
  Py.strip (ws1 +:+ s +:+ ws2) = Py.strip s.
Proof.
  intros H1 H2. unfold Py.strip at 1. rewrite lstrip_pad by assumption.
  apply strip_pad_right, H2.
Qed.

Lemma lstrip_split (s : string) :
  exists before, s = before +:+ Py.lstrip s /\ Py.all_space before = true.
Proof.
  induction s as [|c s IH]; simpl.
  - exists EmptyString. split; reflexivity.
  - destruct (Py.is_space c) eqn:Hc.
    + destruct IH as [before [Hs Hb]]. exists (String c before). split.
      * change (String c before +:+ Py.lstrip s)
          with (String c (before +:+ Py.lstrip s)).
        f_equal. exact Hs.
      * simpl. rewrite Hc. exact Hb.
    + exists EmptyString. split; reflexivity.
Qed.

Lemma rstrip_split (s : string) :
  exists after, s = Py.rstrip s +:+ after /\ Py.all_space after = true.
Proof.
  induction s as [|c s IH]; simpl.
  - exists EmptyString. split; reflexivity.
  - destruct IH as [after [Hs Ha]].
    destruct (Py.rstrip s) as [|d r] eqn:Hr.
    + change (s = after) in Hs. subst after. destruct (Py.is_space c) eqn:Hc.
      * exists (String c s). split; [reflexivity|]. simpl. rewrite Hc. exact Ha.
      * exists s. split; [reflexivity | exact Ha].
    + exists after. split; [|exact Ha].
      change (String c (String d r) +:+ after) with (String c (String d r +:+ after)).
      f_equal. exact Hs.
Qed.

Lemma lstrip_head (s : string) (c : ascii) (rest : string) :
  Py.lstrip s = String c rest -> Py.is_space c = false.
Proof.
  induction s as [|d s IH]; simpl; [discriminate|].
  destruct (Py.is_space d) eqn:Hd; [exact IH|].
  intros [= <- _]. exact Hd.
Qed.

Lemma rstrip_head (s : string) (c : ascii) (rest : string) :
  Py.rstrip s = String c rest -> exists rest', s = String c rest'.
Proof.
  destruct s as [|d s]; simpl; [discriminate|].
  destruct (Py.rstrip s); [destruct (Py.is_space d)|];
    intros H; try discriminate H; injection H as <- _; eexists; reflexivity.
Qed.

Lemma append_last_inv (front : string) (a c : ascii) :
  String a EmptyString = front +:+ String c EmptyString -> a = c.
Proof.
  destruct front as [|b [|b' f]]; intros H; unfold_append_in H; try discriminate H.
  injection H as ->. reflexivity.
Qed.

Lemma rstrip_last (s front : string) (c : ascii) :
  Py.rstrip s = front +:+ String c EmptyString -> Py.is_space c = false.
Proof.
  revert front. induction s as [|a s IH]; intros front; simpl.
  - destruct front; intros H; unfold_append_in H; discriminate H.
  - destruct (Py.rstrip s) as [|d r] eqn:Hr.
    + destruct (Py.is_space a) eqn:Ha;
        [destruct front; intros H; unfold_append_in H; discriminate H|].
      intros H. apply append_last_inv in H. subst c. exact Ha.
    + destruct front as [|b front]; intros H; unfold_append_in H;
        [discriminate H|].
      injection H as _ H. apply (IH front). exact H.
Qed.

Lemma rstrip_fixed (core : string) :
  (forall front c, core = front +:+ String c EmptyString -> Py.is_space c = false) ->
  Py.rstrip core = core.
Proof.
  induction core as [|a s IH]; intros Hlast; [reflexivity|].
  simpl. rewrite IH.
  - destruct s as [|d r]; [|reflexivity].
    rewrite (Hlast EmptyString a eq_refl). reflexivity.
  - intros front c Hs. apply (Hlast (String a front) c). subst s. reflexivity.
Qed.

Lemma strip_fixed (core : string) :
  (forall c rest, core = String c rest -> Py.is_space c = false) ->
  (forall front c, core = front +:+ String c EmptyString -> Py.is_space c = false) ->
  Py.strip core = core.
Proof.
  intros Hfirst Hlast. unfold Py.strip.
  assert (Hl : Py.lstrip core = core).
  { destruct core as [|c rest]; [reflexivity|].
    simpl. rewrite (Hfirst c rest eq_refl). reflexivity. }
  rewrite Hl. apply rstrip_fixed, Hlast.
Qed.

(** [Py.strip] gives a trimmed text of the query, and the trimmed text is
    unique. *)
Lemma trimmed_strip (query : string) : trimmed query (Py.strip query).
Proof.
  destruct (lstrip_split query) as [before [Hq Hb]].
  destruct (rstrip_split (Py.lstrip query)) as [after [Hl Ha]].
  exists before, after. repeat split.
  - unfold Py.strip. rewrite <- Hl. exact Hq.
  - apply all_space_blank, Hb.
  - apply all_space_blank, Ha.
  - intros c rest Hc. apply is_space_not_whitespace.
    unfold Py.strip in Hc. destruct (rstrip_head _ _ _ Hc) as [rest' Hr].
    apply (lstrip_head query c rest'), Hr.
  - intros front c Hc. apply is_space_not_whitespace.
    apply (rstrip_last (Py.lstrip query) front c), Hc.
Qed.

Lemma trimmed_unique (query core : string) : trimmed query core -> Py.strip query = core.
Proof.
  intros [before [after [Hq [Hb [Ha [Hfirst Hlast]]]]]]. subst query.
  rewrite strip_pad by (apply all_space_blank; assumption).
  apply strip_fixed.
  - intros c rest Hc. apply is_space_not_whitespace, (Hfirst c rest Hc).
  - intros front c Hc. apply is_space_not_whitespace, (Hlast front c Hc).
Qed.

(** *** Upper-casing *)

Lemma upper_cased_char_upper_char (c : ascii) : upper_cased_char c = Py.upper_char c.
Proof. destruct c as [[] [] [] [] [] [] [] []]; reflexivity. Qed.

Lemma upper_cased_upper (s : string) : upper_cased s = Py.upper s.
Proof.
  induction s as [|c s IH]; simpl; [reflexivity|].
  rewrite upper_cased_char_upper_char, IH. reflexivity.
Qed.

(** *** Prefixes *)

Lemma startswith_has_prefix (text_ : list N) (p : string) :
  Py.startswith text_ p = true <-> has_prefix text_ p.
Proof.
  unfold has_prefix. revert text_. induction p as [|a p IH]; intros text_; simpl.
  - split; [intros _; exists text_; reflexivity | intros _; reflexivity].
  - destruct text_ as [|n text_].
    + split; [discriminate | intros [rest H]; discriminate H].
    + rewrite andb_true_iff, N.eqb_eq, IH. split.
      * intros [-> [rest ->]]. exists rest. reflexivity.
      * intros [rest [= -> ->]]. split; [reflexivity | exists rest; reflexivity].
Qed.

Lemma existsb_startswith (text_ : list N) (prefixes : list string) :
  existsb (Py.startswith text_) prefixes = true
  <-> exists p, In p prefixes /\ has_prefix text_ p.
Proof.
  rewrite existsb_exists. split; intros [p [Hin Hp]]; exists p; split; try exact Hin;
    apply startswith_has_prefix, Hp.
Qed.

Lemma first_match_find (rows : list (list string * category)) (text_ : list N)
  (c : category) :
  first_match rows text_ c
  <-> c = match find (fun entry => existsb (Py.startswith text_) (fst entry)) rows with
          | Some entry => snd entry
          | None => Other
          end.
Proof.
  split.
  - intros H. induction H as [text_ | prefixes c rows text_ p Hin Hp
                              | prefixes c rows text_ c' Hnone Hrest IH]; simpl.
    + reflexivity.
    + assert (He : existsb (Py.startswith text_) prefixes = true)
        by (apply existsb_startswith; exists p; split; assumption).
      rewrite He. reflexivity.
    + destruct (existsb (Py.startswith text_) prefixes) eqn:He; [|exact IH].
      apply existsb_startswith in He as [p [Hin Hp]]. destruct (Hnone p Hin Hp).
  - revert c. induction rows as [|[prefixes c0] rows IH]; intros c Hc; simpl in Hc.
    + subst c. constructor.
    + destruct (existsb (Py.startswith text_) prefixes) eqn:He.
      * subst c. simpl. apply existsb_startswith in He as [p [Hin Hp]].
        apply (first_match_here prefixes c0 rows text_ p Hin Hp).
      * apply first_match_later; [|apply IH, Hc].
        intros p Hin Hp.
        assert (Ht : existsb (Py.startswith text_) prefixes = true)
          by (apply existsb_startswith; exists p; split; assumption).
        congruence.
Qed.

Lemma first_match_classify (text_ : list N) (c : category) :
  first_match prefix_table text_ c <-> c = classify text_.
Proof. rewrite classify_classify_table. apply first_match_find. Qed.

(** C1.  The branch [call_tool] takes after executing a query is settled
    by the text of the query alone.  Every query has a trimmed text: the
    query is whitespace, the trimmed text, whitespace, and the trimmed
    text neither starts nor ends with whitespace.  The trimmed text is
    upper-cased character by character, and the branch is that of the
    first row of the table, in the order SHOW TABLES, SELECT, SHOW
    DATABASES, DESCRIBE/DESC, SHOW COLUMNS, INSERT/UPDATE/DELETE,
    CREATE/ALTER/DROP/TRUNCATE, that has a prefix the upper-cased text
    starts with; the generic fallback when no row has one. *)
Theorem C1_classification_is_lexical
  (W : World) (config : Config) (cursor : Cursor) (query : string) :
  (exists core c,
      trimmed query core /\ first_match prefix_table (upper_cased core) c)
  /\ (forall core c,
         trimmed query core ->
         first_match prefix_table (upper_cased core) c ->
         dispatch W config cursor query = branch W config cursor c).
Proof.
  split.
  - exists (Py.strip query), (classify (upper_cased (Py.strip query))).
    split; [apply trimmed_strip | apply first_match_classify; reflexivity].
  - intros core c Ht Hm.
    apply trimmed_unique in Ht. apply first_match_classify in Hm.
    rewrite upper_cased_upper in Hm.
    rewrite dispatch_classify, Ht, Hm. reflexivity.
Qed.

Lemma C1_witness :
  dispatch (W_shop cursor_users) config_shop cursor_users query_padded_lower
  = branch (W_shop cursor_users) config_shop cursor_users Select.
Proof.
  apply (proj2 (C1_classification_is_lexical (W_shop cursor_users) config_shop
                  cursor_users query_padded_lower)
           "select id, name from users ;" Select).
  - exact (trimmed_strip query_padded_lower).
  - apply (first_match_later ["SHOW TABLES"] ShowTables).
    + intros p [<- | []] [rest H]. discriminate H.
    + apply (first_match_here ["SELECT"] Select _ _ "SELECT"); [left; reflexivity|].
      eexists. reflexivity.
Defined.

(** ** Running a request *)

Ltac unfold_M :=
  unfold mbind, M_bind, mret, M_ret, bind, ret, raise, lift, emit,
    try_except, with_, of_option, of_sum in *.

Lemma with_release {A} (W : World) (m : M A) (t : list event) :
  with_ (conn_close W) (with_ (cursor_close W) m) t
  = (released W (fst (m t)), snd (m t) ++ [EvCursorClose; EvConnClose]).
Proof.
  unfold released, conn_close, cursor_close. unfold_M.
  destruct (m t) as [o t']; simpl.
  destruct (cursor_close_r W), (conn_close_r W); simpl;
    rewrite <- app_assoc; reflexivity.
Qed.

Lemma connect_run (W : World) (config : Config) (t : list event) :
  connect W config t
  = (match connect_r W config with Some e => Raise e | None => Ret tt end,
     t ++ [EvConnect config]).
Proof. unfold connect. unfold_M. destruct (connect_r W config); reflexivity. Qed.

Lemma execute_run (W : World) (query : string) (t : list event) :
  execute W query t
  = (match execute_r W query with inl e => Raise e | inr c => Ret c end,
     t ++ [EvExecute query]).
Proof. unfold execute. unfold_M. destruct (execute_r W query); reflexivity. Qed.

Lemma commit_run (W : World) (t : list event) :
  commit W t
  = (match commit_r W with Some e => Raise e | None => Ret tt end, t ++ [EvCommit]).
Proof. unfold commit. unfold_M. destruct (commit_r W); reflexivity. Qed.

Lemma fetchall_run (cursor : Cursor) (t : list event) :
  fetchall cursor t
  = (match fetchall_r cursor with inl e => Raise e | inr rows => Ret rows end,
     t ++ [EvFetchall]).
Proof. unfold fetchall. unfold_M. destruct (fetchall_r cursor); reflexivity. Qed.

Lemma call_tool_body_run (W : World) (config : Config) (query : string) (t : list event) :
  call_tool_body W config query t
  = match connect_r W config with
    | Some e => (Raise e, t ++ [EvConnect config])
    | None =>
        match execute_r W query with
        | inl e =>
            (released W (Raise e),
             t ++ [EvConnect config; EvExecute query; EvCursorClose; EvConnClose])
        | inr cursor =>
            let r := dispatch W config cursor query
                       (t ++ [EvConnect config; EvExecute query]) in
            (released W (fst r), snd r ++ [EvCursorClose; EvConnClose])
        end
    end.
Proof.
  unfold call_tool_body, mbind, M_bind, bind.
  rewrite connect_run.
  destruct (connect_r W config) as [e|]; [reflexivity|].
  rewrite with_release, execute_run, <- app_assoc. simpl.
  destruct (execute_r W query) as [e|cursor]; simpl.
  - rewrite <- app_assoc. reflexivity.
  - reflexivity.
Qed.

Lemma call_tool_run (W : World) (config : Config) (arguments : gmap string arg)
  (query : string) :
  get_db_config (environ W) = Ret config ->
  arguments !! "query" = Some (AStr query) ->
  query <> EmptyString ->
  run (call_tool W "execute_sql" arguments)
  = match call_tool_body W config query [] with
    | (Ret a, t) => (Ret a, t)
    | (Raise e, t) =>
        (Ret [text_content ("Error executing query: " +:+ exn_str e)], t)
    end.
Proof.
  intros Hcfg Hq Hne.
  unfold run, call_tool. unfold mbind at 1, M_bind at 1, bind, lift.
  rewrite Hcfg, Hq. simpl.
  destruct query as [|c query']; [congruence|].
  unfold try_except. reflexivity.
Qed.

(** ** Validation *)

(** C10.  On a valid configuration, a request that fails validation
    (an unknown tool name; or the tool [execute_sql] with the query
    absent, null or empty) raises its error with an empty trace: no
    connection was opened and no statement executed.  The error of the
    unknown tool is raised whatever the arguments are, so that test comes
    first. *)
Theorem C10_validation_precedes_database
  (W : World) (config : Config) (name_ : string) (arguments : gmap string arg) (e : exn) :
  get_db_config (environ W) = Ret config ->
  validation_error name_ arguments e ->
  run (call_tool W name_ arguments) = (Raise e, []).
Proof.
  intros Hcfg Hv.
  unfold run, call_tool. unfold mbind, M_bind, bind, lift. rewrite Hcfg.
  destruct Hv as [Hname | Hname Hq].
  - apply String.eqb_neq in Hname. rewrite Hname. reflexivity.
  - subst name_. simpl.
    destruct Hq as [Hq | [Hq | Hq]]; rewrite Hq; reflexivity.
Qed.

Lemma C10_witness :
  get_db_config (environ (W_shop cursor_users)) = Ret config_shop
  /\ validation_error "drop_everything" ∅ (Exn ValueError "Unknown tool: drop_everything")
  /\ run (call_tool (W_shop cursor_users) "drop_everything" ∅)
     = (Raise (Exn ValueError "Unknown tool: drop_everything"), []).
Proof.
  assert (H1 : get_db_config (environ (W_shop cursor_users)) = Ret config_shop)
    by reflexivity.
  assert (H2 : validation_error "drop_everything" ∅
                 (Exn ValueError "Unknown tool: drop_everything"))
    by (apply unknown_tool; discriminate).
  split; [exact H1|]. split; [exact H2|].
  exact (C10_validation_precedes_database _ _ _ _ _ H1 H2).
Defined.

Lemma get_db_config_error_class (env : gmap string string) (e : exn) :
  get_db_config env = Raise e -> exn_class_of e = ValueError.
Proof.
  unfold get_db_config.
  destruct (Py.int_of_str _); [|intros [= <-]; reflexivity].
  destruct (env !! "MYSQL_USER") as [[|]|], (env !! "MYSQL_PASSWORD") as [[|]|],
    (env !! "MYSQL_DATABASE") as [[|]|]; simpl; intros [= <-]; reflexivity.
Qed.

(** C5.  A call of [execute_sql] with the query absent, null or empty
    raises a [ValueError] and returns no text block, and opens no
    connection.  On a valid configuration the error is "Query is
    required"; otherwise it is the error of the configuration, raised
    first. *)
Theorem C5_missing_query_raises (W : World) (arguments : gmap string arg) :
  query_missing arguments ->
  exists e,
    run (call_tool W "execute_sql" arguments) = (Raise e, [])
    /\ exn_class_of e = ValueError
    /\ e = match get_db_config (environ W) with
           | Ret _ => Exn ValueError "Query is required"
           | Raise e' => e'
           end.
Proof.
  intros Hq.
  unfold run, call_tool. unfold mbind, M_bind, bind, lift.
  destruct (get_db_config (environ W)) as [config|e] eqn:Hcfg.
  - exists (Exn ValueError "Query is required").
    split; [|split; reflexivity]. simpl.
    destruct Hq as [Hq | [Hq | Hq]]; rewrite Hq; reflexivity.
  - exists e. split; [reflexivity|]. split; [|reflexivity].
    eapply get_db_config_error_class, Hcfg.
Qed.

Lemma C5_witness :
  exists e,
    run (call_tool (W_shop cursor_users) "execute_sql" (args_of EmptyString))
    = (Raise e, [])
    /\ exn_class_of e = ValueError
    /\ e = Exn ValueError "Query is required".
Proof.
  exact (C5_missing_query_raises (W_shop cursor_users) (args_of EmptyString)
           (or_intror (or_intror eq_refl))).
Defined.

(** ** The branches *)

Lemma classify_empty : classify (Py.upper (Py.strip EmptyString)) = Other.
Proof. reflexivity. Qed.

Lemma classified_nonempty (query : string) :
  classify (Py.upper (Py.strip query)) <> Other -> query <> EmptyString.
Proof. intros H ->. apply H, classify_empty. Qed.

Lemma released_ok {A} (W : World) (o : outcome A) :
  cursor_close_r W = None -> conn_close_r W = None -> released W o = o.
Proof. unfold released. intros -> ->. reflexivity. Qed.

(** A request that passes validation, connects and executes: what is
    left is the branch, the two releases and the handler. *)
Lemma call_tool_dispatch_run (W : World) (config : Config) (arguments : gmap string arg)
  (query : string) (cursor : Cursor) :
  get_db_config (environ W) = Ret config ->
  arguments !! "query" = Some (AStr query) ->
  query <> EmptyString ->
  connect_r W config = None ->
  execute_r W query = inr cursor ->
  run (call_tool W "execute_sql" arguments)
  = let r := branch W config cursor (classify (Py.upper (Py.strip query)))
               [EvConnect config; EvExecute query] in
    (match released W (fst r) with
     | Ret a => Ret a
     | Raise e => Ret [text_content ("Error executing query: " +:+ exn_str e)]
     end,
     snd r ++ [EvCursorClose; EvConnClose]).
Proof.
  intros Hcfg Hq Hne Hconn Hexec.
  rewrite (call_tool_run W config arguments query Hcfg Hq Hne).
  rewrite call_tool_body_run, Hconn, Hexec, dispatch_classify. simpl.
  destruct (released W _); reflexivity.
Qed.

Lemma branch_dml_run (W : World) (cursor : Cursor) (t : list event) :
  branch_dml W cursor t
  = (match commit_r W with
     | Some e => Raise e
     | None => Ret [text_content ("Query executed successfully. Affected rows: "
                                  +:+ Py.str_int (rowcount cursor))]
     end, t ++ [EvCommit]).
Proof.
  unfold branch_dml, mbind, M_bind, bind. rewrite commit_run.
  destruct (commit_r W); reflexivity.
Qed.

Lemma tabulate_run (cursor : Cursor) (rows : list row) (t : list event) :
  tabulate cursor rows t
  = (match description cursor with
     | Some names => Ret [text_content (format_table names rows)]
     | None => Raise (Exn TypeError "'NoneType' object is not iterable")
     end, t).
Proof.
  unfold tabulate, field_names_of. unfold_M.
  destruct (description cursor); reflexivity.
Qed.

(** C6.  A query classified as INSERT, UPDATE or DELETE, on a run where
    no driver call raises: the driver calls are connect, execute, commit
    and the two releases, in this order, so the commit comes after the
    execution and before the response; the text is "Query executed
    successfully. Affected rows: " and the row count the cursor reports. *)
Theorem C6_dml_commits_and_reports_rowcount
  (W : World) (config : Config) (arguments : gmap string arg) (query : string)
  (cursor : Cursor) :
  get_db_config (environ W) = Ret config ->
  arguments !! "query" = Some (AStr query) ->
  classify (Py.upper (Py.strip query)) = Dml ->
  connect_r W config = None ->
  execute_r W query = inr cursor ->
  commit_r W = None ->
  cursor_close_r W = None ->
  conn_close_r W = None ->
  run (call_tool W "execute_sql" arguments)
  = (Ret [text_content ("Query executed successfully. Affected rows: "
                        +:+ Py.str_int (rowcount cursor))],
     [EvConnect config; EvExecute query; EvCommit; EvCursorClose; EvConnClose]).
Proof.
  intros Hcfg Hq Hc Hconn Hexec Hcommit Hcc Hnc.
  assert (Hne : query <> EmptyString)
    by (apply classified_nonempty; rewrite Hc; discriminate).
  rewrite (call_tool_dispatch_run W config arguments query cursor) by assumption.
  rewrite Hc. simpl branch. rewrite branch_dml_run, Hcommit. simpl.
  rewrite released_ok by assumption. reflexivity.
Qed.

Lemma C6_witness :
  run (call_tool (W_shop cursor_users) "execute_sql" (args_of query_update_users))
  = (Ret [text_content "Query executed successfully. Affected rows: 2"],
     [EvConnect config_shop; EvExecute query_update_users; EvCommit;
      EvCursorClose; EvConnClose]).
Proof.
  apply (C6_dml_commits_and_reports_rowcount (W_shop cursor_users) config_shop
           (args_of query_update_users) query_update_users cursor_users);
    reflexivity.
Defined.

Lemma branch_tabular_run (W : World) (config : Config) (cursor : Cursor) (c : category)
  (t : list event) :
  tabular c = true ->
  branch W config cursor c t
  = (match fetchall_r cursor with
     | inl e => Raise e
     | inr [] => Ret [text_content (no_results_sentence c)]
     | inr rows =>
         match description cursor with
         | Some names => Ret [text_content (format_table names rows)]
         | None => Raise (Exn TypeError "'NoneType' object is not iterable")
         end
     end, t ++ [EvFetchall]).
Proof.
  intros Hc.
  destruct c; try discriminate Hc; simpl branch;
    unfold branch_select, branch_describe, branch_show_columns, mbind, M_bind, bind;
    rewrite fetchall_run;
    (destruct (fetchall_r cursor) as [e|[|r rows]]; try reflexivity);
    rewrite tabulate_run; destruct (description cursor); reflexivity.
Qed.

Lemma branch_other_run (W : World) (cursor : Cursor) (t : list event) :
  branch_other W cursor t
  = let committed :=
      (match commit_r W with
       | Some e => Raise e
       | None => Ret [text_content "Query executed successfully."]
       end, t ++ [EvFetchall; EvCommit]) in
    match fetchall_r cursor with
    | inl _ => committed
    | inr [] =>
        (Ret [text_content "Query executed successfully. No results returned."],
         t ++ [EvFetchall])
    | inr rows =>
        match description cursor with
        | Some names => (Ret [text_content (format_table names rows)], t ++ [EvFetchall])
        | None => committed
        end
    end.
Proof.
  unfold branch_other, try_except, mbind, M_bind, bind.
  rewrite fetchall_run.
  destruct (fetchall_r cursor) as [e|[|r rows]]; simpl.
  - rewrite commit_run, <- app_assoc. destruct (commit_r W); reflexivity.
  - reflexivity.
  - rewrite tabulate_run. destruct (description cursor); [reflexivity|].
    rewrite commit_run, <- app_assoc. destruct (commit_r W); reflexivity.
Qed.

(** ** The shape of the text *)

Lemma repeat_nat_length (c : ascii) (n : nat) :
  String.length (Py.repeat_nat (String c EmptyString) n) = n.
Proof. induction n as [|n IH]; [reflexivity | simpl; f_equal; exact IH]. Qed.

Lemma rule_line_len (names : list string) :
  Py.len (rule_line names) = Z.max 0 (rule_width names).
Proof.
  unfold rule_line, Py.repeat, Py.len.
  rewrite (repeat_nat_length "-"%char). lia.
Qed.

Lemma contains_append (c : ascii) (a b : string) :
  Py.contains c (a +:+ b) = Py.contains c a || Py.contains c b.
Proof.
  induction a as [|d a IH]; simpl; [reflexivity|].
  rewrite IH. apply orb_assoc.
Qed.

Lemma format_table_has_newline (names : list string) (rows : list row) :
  Py.contains (ascii_of_nat 10) (format_table names rows) = true.
Proof.
  unfold format_table.
  change (Py.join Py.nl (header_line names :: rule_line names :: map data_line rows))
    with (header_line names +:+ Py.nl
          +:+ Py.join Py.nl (rule_line names :: map data_line rows)).
  rewrite !contains_append. simpl. apply orb_true_r.
Qed.

Lemma count_append (c : ascii) (a b : string) :
  Py.count c (a +:+ b) = (Py.count c a + Py.count c b)%nat.
Proof.
  induction a as [|d a IH]; simpl; [reflexivity|]. rewrite IH. lia.
Qed.

Lemma count_join (c : ascii) (sep : string) (l : list string) :
  Py.count c (Py.join sep l)
  = (list_sum (map (Py.count c) l) + (List.length l - 1) * Py.count c sep)%nat.
Proof.
  induction l as [|x l IH]; [reflexivity|].
  destruct l as [|y l].
  - simpl. lia.
  - change (Py.join sep (x :: y :: l)) with (x +:+ sep +:+ Py.join sep (y :: l)).
    rewrite !count_append, IH. simpl. lia.
Qed.

Lemma count_repeat_nat_other (c d : ascii) (n : nat) :
  Ascii.eqb c d = false ->
  Py.count c (Py.repeat_nat (String d EmptyString) n) = O.
Proof.
  intros H. induction n as [|n IH]; [reflexivity|]. simpl. rewrite H. exact IH.
Qed.

(** The newlines of the tabular text: one after the header, one after
    the rule and one between two rows, and those the names and the
    values hold themselves. *)
Lemma format_table_newlines (names : list string) (r : row) (rows : list row) :
  Py.count (ascii_of_nat 10) (format_table names (r :: rows))
  = (1 + List.length (r :: rows) + newlines_in names
     + list_sum (map (fun r' : row => newlines_in (map str r')) (r :: rows)))%nat.
Proof.
  unfold format_table. rewrite count_join.
  change (map (Py.count (ascii_of_nat 10))
            (header_line names :: rule_line names :: map data_line (r :: rows)))
    with (Py.count (ascii_of_nat 10) (header_line names)
          :: Py.count (ascii_of_nat 10) (rule_line names)
          :: map (Py.count (ascii_of_nat 10)) (map data_line (r :: rows))).
  cbn [list_sum fold_right].
  assert (Hh : Py.count (ascii_of_nat 10) (header_line names) = newlines_in names).
  { unfold header_line, newlines_in. rewrite count_join. simpl Py.count. lia. }
  assert (Hr : Py.count (ascii_of_nat 10) (rule_line names) = O).
  { unfold rule_line, Py.repeat. apply (count_repeat_nat_other _ "-"%char). reflexivity. }
  assert (Hd : forall l : list row,
             list_sum (map (Py.count (ascii_of_nat 10)) (map data_line l))
             = list_sum (map (fun r' : row => newlines_in (map str r')) l)).
  { induction l as [|x l IH]; [reflexivity|]. cbn [map list_sum fold_right].
    f_equal; [|exact IH].
    unfold data_line, newlines_in. rewrite count_join. simpl Py.count. lia. }
  rewrite Hh, Hr, Hd.
  change (Py.count (ascii_of_nat 10) Py.nl) with 1%nat.
  cbn [List.length]. rewrite !length_map. cbn [List.length]. lia.
Qed.

Lemma no_results_sentence_one_line (c : category) :
  Py.contains (ascii_of_nat 10) (no_results_sentence c) = false.
Proof. destruct c; reflexivity. Qed.

(** ** Results of the reading branches *)

(** C8.  A SELECT, DESCRIBE/DESC or SHOW COLUMNS query that runs without
    a driver error and fetches no row is answered with the fixed sentence
    of its branch, whatever the cursor describes: a single line, which no
    table (header, newline, rule) is. *)
Theorem C8_zero_rows_fixed_sentence
  (W : World) (config : Config) (arguments : gmap string arg) (query : string)
  (cursor : Cursor) :
  get_db_config (environ W) = Ret config ->
  arguments !! "query" = Some (AStr query) ->
  tabular (classify (Py.upper (Py.strip query))) = true ->
  connect_r W config = None ->
  execute_r W query = inr cursor ->
  fetchall_r cursor = inr [] ->
  cursor_close_r W = None ->
  conn_close_r W = None ->
  run (call_tool W "execute_sql" arguments)
  = (Ret [text_content (no_results_sentence (classify (Py.upper (Py.strip query))))],
     [EvConnect config; EvExecute query; EvFetchall; EvCursorClose; EvConnClose])
  /\ Py.contains (ascii_of_nat 10)
       (no_results_sentence (classify (Py.upper (Py.strip query)))) = false
  /\ (forall names rows,
        Py.contains (ascii_of_nat 10) (format_table names rows) = true).
Proof.
  intros Hcfg Hq Hc Hconn Hexec Hfetch Hcc Hnc.
  assert (Hne : query <> EmptyString).
  { apply classified_nonempty. intros Heq. rewrite Heq in Hc. discriminate. }
  split; [|split].
  - rewrite (call_tool_dispatch_run W config arguments query cursor) by assumption.
    rewrite branch_tabular_run by assumption. rewrite Hfetch. simpl.
    rewrite released_ok by assumption. reflexivity.
  - apply no_results_sentence_one_line.
  - apply format_table_has_newline.
Qed.

Lemma C8_witness :
  run (call_tool (W_shop cursor_empty) "execute_sql" (args_of query_select_users))
  = (Ret [text_content "Query executed successfully. No results returned."],
     [EvConnect config_shop; EvExecute query_select_users; EvFetchall;
      EvCursorClose; EvConnClose]).
Proof.
  exact (proj1 (C8_zero_rows_fixed_sentence (W_shop cursor_empty) config_shop
                  (args_of query_select_users) query_select_users cursor_empty
                  eq_refl eq_refl eq_refl eq_refl eq_refl eq_refl eq_refl eq_refl)).
Defined.

(** C2, as the code has it.  A SELECT query that runs without a driver
    error and fetches at least one row is answered with the lines, joined
    by newlines: the column names joined by " | " in the order of the
    description; a rule of dashes, as many as the sum of the lengths of
    the names plus 3 for each column but the first; and for each row, in
    order, its values as [str] gives them joined by " | ".  The text has
    one newline after the header, one after the rule and one between two
    rows, besides those the names and the values hold: with none of
    these, two lines and then one line a row. *)
Theorem C2_select_renders_table
  (W : World) (config : Config) (arguments : gmap string arg) (query : string)
  (cursor : Cursor) (names : list string) (rows : list row) :
  get_db_config (environ W) = Ret config ->
  arguments !! "query" = Some (AStr query) ->
  classify (Py.upper (Py.strip query)) = Select ->
  connect_r W config = None ->
  execute_r W query = inr cursor ->
  fetchall_r cursor = inr rows ->
  rows <> [] ->
  description cursor = Some names ->
  cursor_close_r W = None ->
  conn_close_r W = None ->
  run (call_tool W "execute_sql" arguments)
  = (Ret [text_content
            (Py.join Py.nl
               (Py.join " | " names
                :: Py.repeat "-" (rule_width names)
                :: map (fun r : row => Py.join " | " (map str r)) rows))],
     [EvConnect config; EvExecute query; EvFetchall; EvCursorClose; EvConnClose])
  /\ Py.len (Py.repeat "-" (rule_width names))
     = Z.max 0 (sum_Z (map Py.len names) + 3 * (Z.of_nat (List.length names) - 1))
  /\ List.length (map (fun r : row => Py.join " | " (map str r)) rows)
     = List.length rows
  /\ Py.count (ascii_of_nat 10)
       (Py.join Py.nl
          (Py.join " | " names
           :: Py.repeat "-" (rule_width names)
           :: map (fun r : row => Py.join " | " (map str r)) rows))
     = (1 + List.length rows + newlines_in names
        + list_sum (map (fun r : row => newlines_in (map str r)) rows))%nat.
Proof.
  intros Hcfg Hq Hc Hconn Hexec Hfetch Hrows Hdesc Hcc Hnc.
  assert (Hne : query <> EmptyString)
    by (apply classified_nonempty; rewrite Hc; discriminate).
  split; [|split; [|split]];
    [| | |destruct rows as [|r rows];
          [congruence | exact (format_table_newlines names r rows)]].
  - rewrite (call_tool_dispatch_run W config arguments query cursor) by assumption.
    rewrite branch_tabular_run by (rewrite Hc; reflexivity).
    rewrite Hfetch, Hdesc. destruct rows as [|r rows]; [congruence|]. simpl.
    rewrite released_ok by assumption. reflexivity.
  - apply rule_line_len.
  - apply length_map.
Qed.

Lemma C2_witness :
  run (call_tool (W_shop cursor_users) "execute_sql" (args_of query_select_users))
  = (Ret [text_content users_text_nine_dashes],
     [EvConnect config_shop; EvExecute query_select_users; EvFetchall;
      EvCursorClose; EvConnClose]).
Proof.
  exact (proj1 (C2_select_renders_table (W_shop cursor_users) config_shop
                  (args_of query_select_users) query_select_users cursor_users
                  ["id"; "name"] [[VInt 1; VStr "a"]; [VInt 2; VStr "b"]]
                  eq_refl eq_refl eq_refl eq_refl eq_refl eq_refl
                  ltac:(discriminate) eq_refl eq_refl eq_refl)).
Defined.

(** The end-to-end example of C2 as the specification writes it: the
    text with a rule of ten dashes is not what the code returns for the
    table [users]; the rule it returns has nine. *)
Lemma C2_counterexample :
  fst (run (call_tool (W_shop cursor_users) "execute_sql" (args_of query_select_users)))
  <> Ret [text_content users_text_ten_dashes]
  /\ fst (run (call_tool (W_shop cursor_users) "execute_sql" (args_of query_select_users)))
     = Ret [text_content users_text_nine_dashes]
  /\ rule_width ["id"; "name"] = 9.
Proof.
  split; [|split].
  - vm_compute. discriminate.
  - vm_compute. reflexivity.
  - reflexivity.
Qed.

(** C7.  A query of the fallback branch, on a run where the connection,
    the execution and the releases do not raise.  If the fetch yields
    rows (and the cursor has a description), the text is the table of the
    SELECT case; if it yields none, the "no results" sentence; no commit
    is issued in either case.  If the fetch raises, a commit is issued
    after it and the text is "Query executed successfully." (when the
    commit itself raises, its error is reported in-band).  Rows without a
    description end in the same commit, the inner handler catching the
    error of reading the description. *)
Theorem C7_fallback_branch
  (W : World) (config : Config) (arguments : gmap string arg) (query : string)
  (cursor : Cursor) :
  get_db_config (environ W) = Ret config ->
  arguments !! "query" = Some (AStr query) ->
  query <> EmptyString ->
  classify (Py.upper (Py.strip query)) = Other ->
  connect_r W config = None ->
  execute_r W query = inr cursor ->
  cursor_close_r W = None ->
  conn_close_r W = None ->
  run (call_tool W "execute_sql" arguments)
  = let committed :=
      (Ret [text_content
              match commit_r W with
              | None => "Query executed successfully."
              | Some e => "Error executing query: " +:+ exn_str e
              end],
       [EvConnect config; EvExecute query; EvFetchall; EvCommit;
        EvCursorClose; EvConnClose]) in
    match fetchall_r cursor with
    | inl _ => committed
    | inr [] =>
        (Ret [text_content "Query executed successfully. No results returned."],
         [EvConnect config; EvExecute query; EvFetchall; EvCursorClose; EvConnClose])
    | inr rows =>
        match description cursor with
        | Some names =>
            (Ret [text_content (format_table names rows)],
             [EvConnect config; EvExecute query; EvFetchall; EvCursorClose; EvConnClose])
        | None => committed
        end
    end.
Proof.
  intros Hcfg Hq Hne Hc Hconn Hexec Hcc Hnc.
  rewrite (call_tool_dispatch_run W config arguments query cursor) by assumption.
  rewrite Hc. simpl branch. rewrite branch_other_run.
  destruct (fetchall_r cursor) as [e|[|r rows]]; simpl.
  - rewrite released_ok by assumption. destruct (commit_r W); reflexivity.
  - rewrite released_ok by assumption. reflexivity.
  - destruct (description cursor); simpl; rewrite released_ok by assumption;
      [reflexivity | destruct (commit_r W); reflexivity].
Qed.

Lemma C7_witness :
  run (call_tool (W_shop cursor_no_result_set) "execute_sql" (args_of query_call))
  = (Ret [text_content "Query executed successfully."],
     [EvConnect config_shop; EvExecute query_call; EvFetchall; EvCommit;
      EvCursorClose; EvConnClose]).
Proof.
  apply (C7_fallback_branch (W_shop cursor_no_result_set) config_shop
           (args_of query_call) query_call cursor_no_result_set);
    solve [reflexivity | discriminate].
Defined.

(** ** No exception leaves the [try] *)

Lemma mapM_index0_run (rows : list row) (t : list event) :
  snd (mapM (fun r => lift (index0 r)) rows t) = t.
Proof.
  revert t. induction rows as [|r rows IH]; intros t; [reflexivity|].
  simpl. unfold mbind, M_bind, bind.
  change (lift (index0 r) t) with (index0 r, t).
  destruct (index0 r); [|reflexivity].
  specialize (IH t).
  destruct (mapM (fun r0 : row => lift (index0 r0)) rows t) as [[l|e] t'];
    simpl in *; exact IH.
Qed.

Lemma listing_shape (header : string) (rows : list row) (t : list event) :
  text_or_raise (fst (listing header rows t)) /\ snd (listing header rows t) = t.
Proof.
  unfold listing, mbind, M_bind, bind.
  pose proof (mapM_index0_run rows t) as Hm.
  destruct (mapM (fun r => lift (index0 r)) rows t) as [[firsts|e] t']; simpl in *;
    [|split; [exact I | exact Hm]].
  unfold lift. destruct (join_values Py.nl (VStr header :: firsts)); simpl;
    (split; [|exact Hm]); [eexists; reflexivity | exact I].
Qed.

Lemma branch_shape (W : World) (config : Config) (cursor : Cursor) (c : category)
  (t : list event) :
  text_or_raise (fst (branch W config cursor c t)).
Proof.
  destruct (tabular c) eqn:Htab.
  { rewrite branch_tabular_run by assumption.
    destruct (fetchall_r cursor) as [e|[|r rows]]; simpl; try exact I;
      [|destruct (description cursor); simpl; try exact I]; eexists; reflexivity. }
  destruct c; try discriminate Htab; simpl branch.
  - unfold branch_show_tables, mbind, M_bind, bind. rewrite fetchall_run.
    destruct (fetchall_r cursor); [exact I|]. apply listing_shape.
  - unfold branch_show_databases, mbind, M_bind, bind. rewrite fetchall_run.
    destruct (fetchall_r cursor); [exact I|]. apply listing_shape.
  - rewrite branch_dml_run. destruct (commit_r W); simpl; [exact I|].
    eexists; reflexivity.
  - unfold branch_ddl, mbind, M_bind, bind. rewrite commit_run.
    destruct (commit_r W); simpl; [exact I|]. eexists; reflexivity.
  - rewrite branch_other_run.
    destruct (fetchall_r cursor) as [e|[|r rows]]; simpl;
      [| |destruct (description cursor); simpl];
      try (destruct (commit_r W); simpl; try exact I); eexists; reflexivity.
Qed.

Lemma released_shape (W : World) (o : outcome (list TextContent)) :
  text_or_raise o -> text_or_raise (released W o).
Proof.
  unfold released. destruct (conn_close_r W), (cursor_close_r W); simpl; auto.
Qed.

(** On a valid configuration, a call of [execute_sql] with a query that
    is not empty returns one text block, whatever the driver does. *)
Lemma call_tool_returns_text (W : World) (config : Config) (arguments : gmap string arg)
  (query : string) :
  get_db_config (environ W) = Ret config ->
  arguments !! "query" = Some (AStr query) ->
  query <> EmptyString ->
  exists s, fst (run (call_tool W "execute_sql" arguments)) = Ret [text_content s].
Proof.
  intros Hcfg Hq Hne.
  rewrite (call_tool_run W config arguments query Hcfg Hq Hne), call_tool_body_run.
  destruct (connect_r W config) as [e|]; [eexists; reflexivity|].
  destruct (execute_r W query) as [e|cursor].
  - pose proof (released_shape W (Raise e) I) as Hs.
    destruct (released W (Raise e)) as [l|e']; simpl in *;
      [destruct Hs as [s ->]|]; eexists; reflexivity.
  - cbv zeta. rewrite dispatch_classify.
    pose proof (released_shape W _
                  (branch_shape W config cursor (classify (Py.upper (Py.strip query)))
                     ([] ++ [EvConnect config; EvExecute query]))) as Hs.
    destruct (released W _) as [l|e']; simpl in *;
      [destruct Hs as [s ->]|]; eexists; reflexivity.
Qed.

Lemma released_raise {A} (W : World) (e : exn) :
  exists e', released W (Raise e : outcome A) = Raise e'.
Proof.
  unfold released. destruct (conn_close_r W), (cursor_close_r W); eexists; reflexivity.
Qed.

(** C3.  When the connection, the execution or the fetch of the
    top-level dispatch raises [e], the body of the [try] raises [e] and
    [call_tool] returns normally, with the one text block "Error
    executing query: " followed by [str(e)]. *)
Theorem C3_driver_errors_reported_in_band
  (W : World) (config : Config) (arguments : gmap string arg) (query : string) (e : exn) :
  get_db_config (environ W) = Ret config ->
  arguments !! "query" = Some (AStr query) ->
  query <> EmptyString ->
  dispatch_raises W config query e ->
  fst (call_tool_body W config query []) = Raise e
  /\ fst (run (call_tool W "execute_sql" arguments))
     = Ret [text_content ("Error executing query: " +:+ exn_str e)].
Proof.
  intros Hcfg Hq Hne Hr.
  assert (Hbody : fst (call_tool_body W config query []) = Raise e).
  { rewrite call_tool_body_run.
    destruct Hr as [e Hconn | e Hconn Hexec Hcc Hnc
                   | cursor e Hconn Hexec Hc Hfetch Hcc Hnc].
    - rewrite Hconn. reflexivity.
    - rewrite Hconn, Hexec. simpl. apply released_ok; assumption.
    - rewrite Hconn, Hexec. cbv zeta. simpl fst.
      rewrite released_ok by assumption.
      rewrite dispatch_classify.
      destruct (tabular (classify (Py.upper (Py.strip query)))) eqn:Htab.
      { rewrite branch_tabular_run by assumption. rewrite Hfetch. reflexivity. }
      destruct (classify (Py.upper (Py.strip query)));
        try discriminate Hc; try discriminate Htab; simpl branch.
      + unfold branch_show_tables, mbind, M_bind, bind.
        rewrite fetchall_run, Hfetch. reflexivity.
      + unfold branch_show_databases, mbind, M_bind, bind.
        rewrite fetchall_run, Hfetch. reflexivity. }
  split; [exact Hbody|].
  rewrite (call_tool_run W config arguments query Hcfg Hq Hne).
  destruct (call_tool_body W config query []) as [[l|e'] t]; simpl in *;
    [discriminate | congruence].
Qed.

Lemma C3_witness :
  fst (run (call_tool W_down "execute_sql" (args_of query_select_users)))
  = Ret [text_content "Error executing query: Can't connect to MySQL server"].
Proof.
  exact (proj2 (C3_driver_errors_reported_in_band W_down config_shop
                  (args_of query_select_users) query_select_users
                  (Exn DriverError "Can't connect to MySQL server")
                  eq_refl eq_refl ltac:(discriminate)
                  (connection_raises W_down config_shop query_select_users _ eq_refl))).
Defined.

(** ** Whitespace *)

Lemma classify_all_space (s : string) :
  Py.all_space s = true -> classify (Py.upper (Py.strip s)) = Other.
Proof.
  intros H. unfold Py.strip. rewrite lstrip_all_space by assumption. reflexivity.
Qed.

Lemma call_tool_trace (W : World) (config : Config) (arguments : gmap string arg)
  (query : string) :
  get_db_config (environ W) = Ret config ->
  arguments !! "query" = Some (AStr query) ->
  query <> EmptyString ->
  snd (run (call_tool W "execute_sql" arguments))
  = snd (call_tool_body W config query []).
Proof.
  intros Hcfg Hq Hne.
  rewrite (call_tool_run W config arguments query Hcfg Hq Hne).
  destruct (call_tool_body W config query []) as [[l|e'] t]; reflexivity.
Qed.

Lemma branch_other_trace (W : World) (cursor : Cursor) (t : list event) :
  exists rest, snd (branch_other W cursor t) = t ++ rest.
Proof.
  rewrite branch_other_run.
  destruct (fetchall_r cursor) as [e|[|r rows]]; simpl;
    [| |destruct (description cursor)]; eexists; reflexivity.
Qed.

Ltac settle_releases W :=
  unfold released, release_text;
  destruct (conn_close_r W), (cursor_close_r W); reflexivity.

(** C9, as the code has it.  A query that is not empty and holds only
    whitespace passes validation: on a valid configuration [call_tool]
    does not raise, it connects, executes the query as given and takes
    the fallback branch.  A failure of the connection, of the execution,
    of the commit or of a release is reported in-band as an error text.
    A failure of the fetch is not: a commit is issued and the text is
    "Query executed successfully." *)
Theorem C9_whitespace_query_passes_validation
  (W : World) (config : Config) (arguments : gmap string arg) (query : string) :
  get_db_config (environ W) = Ret config ->
  arguments !! "query" = Some (AStr query) ->
  query <> EmptyString ->
  Py.all_space query = true ->
  run (call_tool W "execute_sql" arguments)
  = match connect_r W config with
    | Some e =>
        (Ret [text_content ("Error executing query: " +:+ exn_str e)],
         [EvConnect config])
    | None =>
        match execute_r W query with
        | inl e =>
            (Ret [text_content
                    (release_text W ("Error executing query: " +:+ exn_str e))],
             [EvConnect config; EvExecute query; EvCursorClose; EvConnClose])
        | inr cursor =>
            let committed :=
              (Ret [text_content
                      (release_text W
                         match commit_r W with
                         | None => "Query executed successfully."
                         | Some e => "Error executing query: " +:+ exn_str e
                         end)],
               [EvConnect config; EvExecute query; EvFetchall; EvCommit;
                EvCursorClose; EvConnClose]) in
            match fetchall_r cursor with
            | inl _ => committed
            | inr [] =>
                (Ret [text_content
                        (release_text W
                           "Query executed successfully. No results returned.")],
                 [EvConnect config; EvExecute query; EvFetchall;
                  EvCursorClose; EvConnClose])
            | inr rows =>
                match description cursor with
                | Some names =>
                    (Ret [text_content (release_text W (format_table names rows))],
                     [EvConnect config; EvExecute query; EvFetchall;
                      EvCursorClose; EvConnClose])
                | None => committed
                end
            end
        end
    end.
Proof.
  intros Hcfg Hq Hne Hsp.
  rewrite (call_tool_run W config arguments query Hcfg Hq Hne), call_tool_body_run.
  destruct (connect_r W config) as [e|]; [reflexivity|].
  destruct (execute_r W query) as [e|cursor].
  - settle_releases W.
  - cbv zeta. rewrite dispatch_classify, classify_all_space by assumption.
    simpl branch. rewrite branch_other_run.
    destruct (fetchall_r cursor) as [e|[|r rows]]; simpl.
    + destruct (commit_r W); settle_releases W.
    + settle_releases W.
    + destruct (description cursor); simpl; [settle_releases W|].
      destruct (commit_r W); settle_releases W.
Qed.

Lemma C9_witness :
  run (call_tool (W_shop cursor_users) "execute_sql" (args_of query_blank))
  = (Ret [text_content users_text_nine_dashes],
     [EvConnect config_shop; EvExecute query_blank; EvFetchall;
      EvCursorClose; EvConnClose]).
Proof.
  exact (C9_whitespace_query_passes_validation (W_shop cursor_users) config_shop
           (args_of query_blank) query_blank
           eq_refl eq_refl ltac:(discriminate) eq_refl).
Defined.

(** C9 as the specification words it fails on a failing fetch: for a
    query of whitespace the failure of the database is not reported, the
    response is the text of a success, after a commit. *)
Lemma C9_counterexample :
  Py.all_space query_blank = true
  /\ query_blank <> EmptyString
  /\ fetchall_r cursor_no_result_set = inl (Exn DriverError "no result set")
  /\ run (call_tool (W_shop cursor_no_result_set) "execute_sql" (args_of query_blank))
     = (Ret [text_content "Query executed successfully."],
        [EvConnect config_shop; EvExecute query_blank; EvFetchall; EvCommit;
         EvCursorClose; EvConnClose])
  /\ String.prefix "Error executing query" "Query executed successfully." = false.
Proof.
  split; [reflexivity|]. split; [discriminate|]. split; [reflexivity|].
  split; [vm_compute; reflexivity | reflexivity].
Qed.

(** ** The resource lister *)

Lemma list_resources_run (W : World) (config : Config) :
  get_db_config (environ W) = Ret config ->
  run (list_resources W)
  = match list_resources_body W config [] with
    | (Ret l, t) => (Ret l, t)
    | (Raise _, t) => (Ret [], t)
    end.
Proof.
  intros Hcfg. unfold run, list_resources.
  unfold mbind at 1, M_bind at 1, bind, lift. rewrite Hcfg.
  unfold try_except. reflexivity.
Qed.

Lemma list_resources_body_run (W : World) (config : Config) (t : list event) :
  list_resources_body W config t
  = match connect_r W config with
    | Some e => (Raise e, t ++ [EvConnect config])
    | None =>
        let r := (cursor ← execute W "SHOW TABLES";
                  tables ← fetchall cursor;
                  mapM (make_resource W) tables) (t ++ [EvConnect config]) in
        (released W (fst r), snd r ++ [EvCursorClose; EvConnClose])
    end.
Proof.
  unfold list_resources_body. unfold mbind at 1, M_bind at 1, bind at 1.
  rewrite connect_run.
  destruct (connect_r W config) as [e|]; [reflexivity|].
  rewrite with_release. reflexivity.
Qed.

Lemma released_release_error {A} (W : World) (o : outcome A) :
  cursor_close_r W <> None \/ conn_close_r W <> None ->
  exists e, released W o = Raise e.
Proof.
  unfold released. intros H.
  destruct (conn_close_r W) as [e|]; [eexists; reflexivity|].
  destruct (cursor_close_r W) as [e|]; [eexists; reflexivity|].
  destruct H as [H|H]; congruence.
Qed.

Lemma list_resources_body_fails (W : World) (config : Config) :
  listing_fails W config ->
  exists e, fst (list_resources_body W config []) = Raise e.
Proof.
  intros Hf. rewrite list_resources_body_run.
  destruct Hf as [e Hconn | e Hconn Hexec | cursor e Hconn Hexec Hfetch | Hconn Hrel];
    rewrite Hconn.
  - eexists; reflexivity.
  - cbv zeta. unfold mbind at 1, M_bind at 1, bind at 1.
    rewrite execute_run, Hexec. simpl fst. apply released_raise.
  - cbv zeta. unfold mbind at 1, M_bind at 1, bind at 1.
    rewrite execute_run, Hexec.
    unfold mbind at 1, M_bind at 1, bind at 1.
    rewrite fetchall_run, Hfetch. simpl fst. apply released_raise.
  - cbv zeta. simpl fst. apply released_release_error. exact Hrel.
Qed.

(** C4, as the code has it.  With a valid configuration the lister never
    raises, and a failure of the connection, of the query or of a release
    makes it return the empty sequence.  An error of the configuration is
    raised by [get_db_config] before the [try] and leaves the lister as
    it is, before any driver call. *)
Theorem C4_listing_failures (W : World) :
  (forall config,
      get_db_config (environ W) = Ret config ->
      (exists l, fst (run (list_resources W)) = Ret l)
      /\ (listing_fails W config -> fst (run (list_resources W)) = Ret []))
  /\ (forall e,
         get_db_config (environ W) = Raise e ->
         run (list_resources W) = (Raise e, [])).
Proof.
  split.
  - intros config Hcfg. rewrite (list_resources_run W config Hcfg). split.
    + destruct (list_resources_body W config []) as [[l|e] t]; eexists; reflexivity.
    + intros Hf. destruct (list_resources_body_fails W config Hf) as [e He].
      destruct (list_resources_body W config []) as [[l|e'] t]; simpl in *;
        [discriminate | reflexivity].
  - intros e Hcfg. unfold run, list_resources.
    unfold mbind, M_bind, bind, lift. rewrite Hcfg. reflexivity.
Qed.

Lemma C4_witness :
  fst (run (list_resources W_down)) = Ret [].
Proof.
  exact (proj2 (proj1 (C4_listing_failures W_down) config_shop eq_refl)
           (listing_connection_error W_down config_shop
              (Exn DriverError "Can't connect to MySQL server") eq_refl)).
Defined.

(** C4 as the specification words it fails on a configuration error:
    without [MYSQL_USER] the lister raises the error of [get_db_config]
    and returns no sequence. *)
Lemma C4_counterexample :
  get_db_config (environ W_no_user)
  = Raise (Exn ValueError "Missing required database configuration")
  /\ run (list_resources W_no_user)
     = (Raise (Exn ValueError "Missing required database configuration"), [])
  /\ fst (run (list_resources W_no_user)) <> Ret [].
Proof.
  split; [reflexivity|]. split; [reflexivity|]. vm_compute. discriminate.
Qed.

(** * Further properties of the code *)

(** ** [get_db_config] *)

(** X1.  A configuration [get_db_config] returns carries the values of
    the environment: the user, the password and the database are those
    set there and none is empty, the host is MYSQL_HOST or "localhost",
    and the port is what [int] reads from MYSQL_PORT or from "3306". *)
Theorem X1_config_reflects_environment (env : gmap string string) (config : Config) :
  get_db_config env = Ret config ->
  env !! "MYSQL_USER" = Some (user config) /\ user config <> EmptyString
  /\ env !! "MYSQL_PASSWORD" = Some (password config) /\ password config <> EmptyString
  /\ env !! "MYSQL_DATABASE" = Some (database config) /\ database config <> EmptyString
  /\ host config = default "localhost" (env !! "MYSQL_HOST")
  /\ Py.int_of_str (default "3306" (env !! "MYSQL_PORT")) = Some (port config).
Proof.
  unfold get_db_config.
  destruct (Py.int_of_str _) as [p|]; [|discriminate].
  destruct (env !! "MYSQL_USER") as [u|]; [|discriminate].
  destruct (env !! "MYSQL_PASSWORD") as [pw|]; [|discriminate].
  destruct (env !! "MYSQL_DATABASE") as [d|]; [|discriminate].
  destruct u as [|cu u]; [discriminate|].
  destruct pw as [|cp pw]; [discriminate|].
  destruct d as [|cd d]; [discriminate|].
  simpl. intros [= <-]. simpl. repeat split; discriminate.
Qed.

Lemma X1_witness :
  env_remote !! "MYSQL_USER" = Some "app" /\ "app" <> EmptyString
  /\ env_remote !! "MYSQL_PASSWORD" = Some "secret" /\ "secret" <> EmptyString
  /\ env_remote !! "MYSQL_DATABASE" = Some "shop" /\ "shop" <> EmptyString
  /\ "db.internal" = default "localhost" (env_remote !! "MYSQL_HOST")
  /\ Py.int_of_str (default "3306" (env_remote !! "MYSQL_PORT")) = Some 3307.
Proof.
  exact (X1_config_reflects_environment env_remote
           {| host := "db.internal"; port := 3307; user := "app";
              password := "secret"; database := "shop" |} eq_refl).
Defined.

(** X2.  [get_db_config] raises "Missing required database
    configuration" exactly when the port is readable and one of
    MYSQL_USER, MYSQL_PASSWORD, MYSQL_DATABASE is unset or empty: a port
    that [int] refuses is reported first, with its own message. *)
Theorem X2_missing_configuration_iff (env : gmap string string) :
  get_db_config env = Raise (Exn ValueError "Missing required database configuration")
  <-> (Py.int_of_str (default "3306" (env !! "MYSQL_PORT")) <> None
       /\ missing_required env).
Proof.
  unfold get_db_config, missing_required.
  destruct (Py.int_of_str _) as [p|].
  - destruct (env !! "MYSQL_USER") as [[|cu u]|], (env !! "MYSQL_PASSWORD") as [[|cp pw]|],
      (env !! "MYSQL_DATABASE") as [[|cd d]|]; simpl;
      (split;
       [ intros H; try discriminate H; (split; [discriminate | auto])
       | intros [_ [H | [H | H]]]; try discriminate H; reflexivity ]).
  - split; [|intros [H _]; congruence].
    intros [= H]. apply (f_equal (String.get 0)) in H.
    unfold Py.int_error in H. destruct (Py.int_parse _); discriminate H.
Qed.

Lemma X2_witness :
  get_db_config (environ W_no_user)
  = Raise (Exn ValueError "Missing required database configuration").
Proof.
  apply (proj2 (X2_missing_configuration_iff (environ W_no_user))).
  split; [discriminate | left; reflexivity].
Defined.

(** ** More on [list_resources] *)

Lemma make_resource_run (W : World) (v : value) (rest : row) (t : list event) :
  make_resource W (v :: rest) t
  = (match resource_r W ("mysql://" +:+ str v +:+ "/data") with
     | Some e => Raise e
     | None => Ret {| uri := "mysql://" +:+ str v +:+ "/data";
                      name := "Table: " +:+ str v;
                      mimeType := "text/plain";
                      description_ := "Data in table: " +:+ str v |}
     end, t).
Proof.
  unfold make_resource. unfold_M. simpl.
  destruct (resource_r W _); reflexivity.
Qed.

Lemma make_resource_bad (W : World) (r : row) (t : list event) :
  bad_row W r -> exists e, fst (make_resource W r t) = Raise e.
Proof.
  destruct r as [|v rest]; simpl; intros H.
  - eexists. reflexivity.
  - rewrite make_resource_run.
    destruct (resource_r W _) as [e|]; [eexists; reflexivity | congruence].
Qed.


Lemma mapM_make_resource_bad (W : World) (rows : list row) (t : list event) :
  (exists r, In r rows /\ bad_row W r) ->
  exists e, fst (mapM (make_resource W) rows t) = Raise e.
Proof.
  revert t. induction rows as [|x rows IH]; intros t [r [Hin Hbad]]; [destruct Hin|].
  simpl. unfold mbind, M_bind, bind.
  destruct (make_resource W x t) as [[y|e] t'] eqn:Hx; [|eexists; reflexivity].
  destruct Hin as [-> | Hin].
  - destruct (make_resource_bad W r t Hbad) as [e He].
    rewrite Hx in He. discriminate He.
  - destruct (IH t' (ex_intro _ r (conj Hin Hbad))) as [e He].
    destruct (mapM (make_resource W) rows t') as [[ys|e'] t'']; simpl in He;
      [discriminate He | eexists; reflexivity].
Qed.

Lemma show_tables_run (W : World) (t : list event) :
  (cursor ← execute W "SHOW TABLES";
   tables ← fetchall cursor;
   mapM (make_resource W) tables) t
  = match execute_r W "SHOW TABLES" with
    | inl e => (Raise e, t ++ [EvExecute "SHOW TABLES"])
    | inr cursor =>
        match fetchall_r cursor with
        | inl e => (Raise e, t ++ [EvExecute "SHOW TABLES"; EvFetchall])
        | inr rows =>
            mapM (make_resource W) rows (t ++ [EvExecute "SHOW TABLES"; EvFetchall])
        end
    end.
Proof.
  unfold mbind at 1, M_bind at 1, bind at 1. rewrite execute_run.
  destruct (execute_r W "SHOW TABLES") as [e|cursor]; [reflexivity|].
  unfold mbind at 1, M_bind at 1, bind at 1. rewrite fetchall_run, <- app_assoc.
  destruct (fetchall_r cursor); reflexivity.
Qed.



(** X4.  The listing is all or nothing: when one row of SHOW TABLES is
    an empty tuple or gives a uri the validation refuses, the lister
    returns the empty sequence, not the descriptors of the other
    tables. *)
Theorem X4_list_resources_all_or_nothing
  (W : World) (config : Config) (cursor : Cursor) (rows : list row) (r : row) :
  get_db_config (environ W) = Ret config ->
  connect_r W config = None ->
  execute_r W "SHOW TABLES" = inr cursor ->
  fetchall_r cursor = inr rows ->
  In r rows ->
  bad_row W r ->
  fst (run (list_resources W)) = Ret [].
Proof.
  intros Hcfg Hconn Hexec Hfetch Hin Hbad.
  rewrite (list_resources_run W config Hcfg), list_resources_body_run, Hconn.
  cbv zeta. rewrite show_tables_run, Hexec, Hfetch.
  destruct (mapM_make_resource_bad W rows
              (([] ++ [EvConnect config]) ++ [EvExecute "SHOW TABLES"; EvFetchall])
              (ex_intro _ r (conj Hin Hbad))) as [e He].
  destruct (mapM (make_resource W) rows _) as [[l|e'] t'] eqn:Hm; simpl in *.
  - discriminate He.
  - destruct (released_raise (A := list Resource) W e') as [e'' ->]. reflexivity.
Qed.

Lemma X4_witness :
  fst (run (list_resources W_strict)) = Ret [].
Proof.
  apply (X4_list_resources_all_or_nothing W_strict config_shop cursor_tables
           (one_column ["orders"; "users"]) [VStr "users"]);
    try reflexivity.
  - right; left; reflexivity.
  - discriminate.
Defined.

Lemma string_length_append (a b : string) :
  String.length (a +:+ b) = (String.length a + String.length b)%nat.
Proof. induction a as [|c a IH]; simpl; [reflexivity | now f_equal]. Qed.





(** ** The listing branches and the DDL branch *)

Lemma mapM_index0_one_column (names : list string) (t : list event) :
  mapM (fun r => lift (index0 r)) (one_column names) t = (Ret (map VStr names), t).
Proof.
  induction names as [|x names IH]; [reflexivity|].
  simpl. unfold mbind, M_bind, bind.
  change (lift (Ret (VStr x)) t) with (Ret (VStr x), t).
  fold (one_column names). cbv iota beta. rewrite IH. reflexivity.
Qed.

Lemma first_non_str_strings (i : Z) (names : list string) :
  first_non_str i (map VStr names) = None.
Proof. revert i. induction names as [|x names IH]; intros i; simpl; auto. Qed.

Lemma map_str_strings (names : list string) : map str (map VStr names) = names.
Proof. induction names as [|x names IH]; simpl; [reflexivity | now f_equal]. Qed.

Lemma listing_run (header : string) (names : list string) (t : list event) :
  listing header (one_column names) t
  = (Ret [text_content (Py.join Py.nl (header :: names))], t).
Proof.
  unfold listing, mbind, M_bind, bind.
  rewrite mapM_index0_one_column.
  unfold lift, join_values.
  change (first_non_str 0 (VStr header :: map VStr names))
    with (first_non_str (0 + 1) (map VStr names)).
  rewrite first_non_str_strings.
  change (map str (VStr header :: map VStr names))
    with (header :: map str (map VStr names)).
  rewrite map_str_strings. reflexivity.
Qed.

(** X6.  A SHOW TABLES query that runs without a driver error is
    answered with the line "{database} tables:", the database being the
    configured one, and then the table names, one a line, in the order of
    the rows; no commit is issued. *)
Theorem X6_show_tables_lists_names
  (W : World) (config : Config) (arguments : gmap string arg) (query : string)
  (cursor : Cursor) (tables : list string) :
  get_db_config (environ W) = Ret config ->
  arguments !! "query" = Some (AStr query) ->
  classify (Py.upper (Py.strip query)) = ShowTables ->
  connect_r W config = None ->
  execute_r W query = inr cursor ->
  fetchall_r cursor = inr (one_column tables) ->
  cursor_close_r W = None ->
  conn_close_r W = None ->
  run (call_tool W "execute_sql" arguments)
  = (Ret [text_content (Py.join Py.nl ((database config +:+ " tables:") :: tables))],
     [EvConnect config; EvExecute query; EvFetchall; EvCursorClose; EvConnClose]).
Proof.
  intros Hcfg Hq Hc Hconn Hexec Hfetch Hcc Hnc.
  assert (Hne : query <> EmptyString)
    by (apply classified_nonempty; rewrite Hc; discriminate).
  rewrite (call_tool_dispatch_run W config arguments query cursor) by assumption.
  rewrite Hc. simpl branch.
  unfold branch_show_tables, mbind, M_bind, bind.
  rewrite fetchall_run, Hfetch, listing_run. simpl.
  rewrite released_ok by assumption. reflexivity.
Qed.

Lemma X6_witness :
  run (call_tool (W_shop cursor_tables) "execute_sql" (args_of query_show_tables))
  = (Ret [text_content ("shop tables:" +:+ Py.nl +:+ "orders" +:+ Py.nl +:+ "users")],
     [EvConnect config_shop; EvExecute query_show_tables; EvFetchall;
      EvCursorClose; EvConnClose]).
Proof.
  exact (X6_show_tables_lists_names (W_shop cursor_tables) config_shop
           (args_of query_show_tables) query_show_tables cursor_tables
           ["orders"; "users"]
           eq_refl eq_refl eq_refl eq_refl eq_refl eq_refl eq_refl eq_refl).
Defined.

(** X7.  A SHOW DATABASES query that runs without a driver error is
    answered with the line "Available databases:" and then the database
    names, one a line, in the order of the rows. *)
Theorem X7_show_databases_lists_names
  (W : World) (config : Config) (arguments : gmap string arg) (query : string)
  (cursor : Cursor) (databases : list string) :
  get_db_config (environ W) = Ret config ->
  arguments !! "query" = Some (AStr query) ->
  classify (Py.upper (Py.strip query)) = ShowDatabases ->
  connect_r W config = None ->
  execute_r W query = inr cursor ->
  fetchall_r cursor = inr (one_column databases) ->
  cursor_close_r W = None ->
  conn_close_r W = None ->
  run (call_tool W "execute_sql" arguments)
  = (Ret [text_content (Py.join Py.nl ("Available databases:" :: databases))],
     [EvConnect config; EvExecute query; EvFetchall; EvCursorClose; EvConnClose]).
Proof.
  intros Hcfg Hq Hc Hconn Hexec Hfetch Hcc Hnc.
  assert (Hne : query <> EmptyString)
    by (apply classified_nonempty; rewrite Hc; discriminate).
  rewrite (call_tool_dispatch_run W config arguments query cursor) by assumption.
  rewrite Hc. simpl branch.
  unfold branch_show_databases, mbind, M_bind, bind.
  rewrite fetchall_run, Hfetch, listing_run. simpl.
  rewrite released_ok by assumption. reflexivity.
Qed.

Lemma X7_witness :
  run (call_tool (W_shop cursor_databases) "execute_sql" (args_of query_show_databases))
  = (Ret [text_content ("Available databases:" +:+ Py.nl +:+ "information_schema"
                        +:+ Py.nl +:+ "shop")],
     [EvConnect config_shop; EvExecute query_show_databases; EvFetchall;
      EvCursorClose; EvConnClose]).
Proof.
  exact (X7_show_databases_lists_names (W_shop cursor_databases) config_shop
           (args_of query_show_databases) query_show_databases cursor_databases
           ["information_schema"; "shop"]
           eq_refl eq_refl eq_refl eq_refl eq_refl eq_refl eq_refl eq_refl).
Defined.

(** X8.  A CREATE, ALTER, DROP or TRUNCATE query whose connection and
    execution succeed: the cursor is not read, one commit is issued after
    the execution, and the text is "DDL statement executed
    successfully." whatever the statement is; when the commit raises, its
    error is reported in-band instead. *)
Theorem X8_ddl_commits_and_acknowledges
  (W : World) (config : Config) (arguments : gmap string arg) (query : string)
  (cursor : Cursor) :
  get_db_config (environ W) = Ret config ->
  arguments !! "query" = Some (AStr query) ->
  classify (Py.upper (Py.strip query)) = Ddl ->
  connect_r W config = None ->
  execute_r W query = inr cursor ->
  cursor_close_r W = None ->
  conn_close_r W = None ->
  run (call_tool W "execute_sql" arguments)
  = (Ret [text_content
            match commit_r W with
            | None => "DDL statement executed successfully."
            | Some e => "Error executing query: " +:+ exn_str e
            end],
     [EvConnect config; EvExecute query; EvCommit; EvCursorClose; EvConnClose]).
Proof.
  intros Hcfg Hq Hc Hconn Hexec Hcc Hnc.
  assert (Hne : query <> EmptyString)
    by (apply classified_nonempty; rewrite Hc; discriminate).
  rewrite (call_tool_dispatch_run W config arguments query cursor) by assumption.
  rewrite Hc. simpl branch.
  unfold branch_ddl, mbind, M_bind, bind. rewrite commit_run.
  destruct (commit_r W); simpl; rewrite released_ok by assumption; reflexivity.
Qed.

Lemma X8_witness :
  run (call_tool (W_shop cursor_no_result_set) "execute_sql" (args_of query_create))
  = (Ret [text_content "DDL statement executed successfully."],
     [EvConnect config_shop; EvExecute query_create; EvCommit;
      EvCursorClose; EvConnClose]).
Proof.
  exact (X8_ddl_commits_and_acknowledges (W_shop cursor_no_result_set) config_shop
           (args_of query_create) query_create cursor_no_result_set
           eq_refl eq_refl eq_refl eq_refl eq_refl eq_refl eq_refl).
Defined.

(** ** The driver calls of a request *)

Lemma read_branch_trace (W : World) (config : Config) (cursor : Cursor) (c : category)
  (t : list event) :
  fetches_unguarded c = true ->
  snd (branch W config cursor c t) = t ++ [EvFetchall].
Proof.
  intros Hc.
  destruct (tabular c) eqn:Htab.
  { rewrite branch_tabular_run by assumption. reflexivity. }
  destruct c; try discriminate Hc; try discriminate Htab; simpl branch.
  - unfold branch_show_tables, mbind, M_bind, bind. rewrite fetchall_run.
    destruct (fetchall_r cursor); [reflexivity|]. apply listing_shape.
  - unfold branch_show_databases, mbind, M_bind, bind. rewrite fetchall_run.
    destruct (fetchall_r cursor); [reflexivity|]. apply listing_shape.
Qed.

Lemma branch_trace (W : World) (config : Config) (cursor : Cursor) (c : category)
  (t : list event) :
  exists calls,
    snd (branch W config cursor c t) = t ++ calls
    /\ Forall (fun ev => ev = EvFetchall \/ ev = EvCommit) calls.
Proof.
  destruct (fetches_unguarded c) eqn:Hc.
  { exists [EvFetchall]. split; [apply read_branch_trace, Hc|].
    constructor; [left; reflexivity | constructor]. }
  destruct c; try discriminate Hc; simpl branch.
  - exists [EvCommit]. rewrite branch_dml_run. split; [reflexivity|].
    constructor; [right; reflexivity | constructor].
  - exists [EvCommit]. unfold branch_ddl, mbind, M_bind, bind. rewrite commit_run.
    split; [destruct (commit_r W); reflexivity|]. constructor; [right; reflexivity|].
    constructor.
  - rewrite branch_other_run.
    destruct (fetchall_r cursor) as [e|[|r rows]]; simpl;
      [| |destruct (description cursor)];
      first [ exists [EvFetchall; EvCommit]; split; [reflexivity|];
              constructor; [left; reflexivity|];
              constructor; [right; reflexivity | constructor]
            | exists [EvFetchall]; split; [reflexivity|];
              constructor; [left; reflexivity | constructor] ].
Qed.

(** X9.  Every call that passes validation opens one connection.  When
    the connection fails, nothing else is called.  When it succeeds, the
    query is executed as given, and on every path (a failing execution,
    fetch or commit included) the cursor and then the connection are
    released last; between the execution and the releases there are only
    fetches and commits. *)
Theorem X9_released_on_every_path
  (W : World) (config : Config) (arguments : gmap string arg) (query : string) :
  get_db_config (environ W) = Ret config ->
  arguments !! "query" = Some (AStr query) ->
  query <> EmptyString ->
  match connect_r W config with
  | Some _ => snd (run (call_tool W "execute_sql" arguments)) = [EvConnect config]
  | None =>
      exists calls,
        snd (run (call_tool W "execute_sql" arguments))
        = [EvConnect config; EvExecute query] ++ calls ++ [EvCursorClose; EvConnClose]
        /\ Forall (fun ev => ev = EvFetchall \/ ev = EvCommit) calls
  end.
Proof.
  intros Hcfg Hq Hne.
  rewrite (call_tool_trace W config arguments query Hcfg Hq Hne), call_tool_body_run.
  destruct (connect_r W config) as [e|]; [reflexivity|].
  destruct (execute_r W query) as [e|cursor].
  - exists []. split; [reflexivity | constructor].
  - cbv zeta. rewrite dispatch_classify.
    destruct (branch_trace W config cursor (classify (Py.upper (Py.strip query)))
                ([] ++ [EvConnect config; EvExecute query])) as [calls [Hs Hf]].
    exists calls. split; [|exact Hf].
    rewrite Hs. simpl. reflexivity.
Qed.

Lemma X9_witness :
  snd (run (call_tool W_down "execute_sql" (args_of query_select_users)))
  = [EvConnect config_shop].
Proof.
  exact (X9_released_on_every_path W_down config_shop
           (args_of query_select_users) query_select_users
           eq_refl eq_refl ltac:(discriminate)).
Defined.

(** X10.  A query of a reading branch (SHOW TABLES, SELECT, SHOW
    DATABASES, DESCRIBE/DESC, SHOW COLUMNS) never commits: once connected
    and executed, its driver calls are one fetch and the two releases,
    whatever the fetch, the formatting and the releases do. *)
Theorem X10_reading_branches_never_commit
  (W : World) (config : Config) (arguments : gmap string arg) (query : string)
  (cursor : Cursor) :
  get_db_config (environ W) = Ret config ->
  arguments !! "query" = Some (AStr query) ->
  fetches_unguarded (classify (Py.upper (Py.strip query))) = true ->
  connect_r W config = None ->
  execute_r W query = inr cursor ->
  snd (run (call_tool W "execute_sql" arguments))
  = [EvConnect config; EvExecute query; EvFetchall; EvCursorClose; EvConnClose]
  /\ ~ In EvCommit (snd (run (call_tool W "execute_sql" arguments))).
Proof.
  intros Hcfg Hq Hc Hconn Hexec.
  assert (Hne : query <> EmptyString).
  { apply classified_nonempty. intros Heq. rewrite Heq in Hc. discriminate. }
  assert (Ht : snd (run (call_tool W "execute_sql" arguments))
               = [EvConnect config; EvExecute query; EvFetchall;
                  EvCursorClose; EvConnClose]).
  { rewrite (call_tool_trace W config arguments query Hcfg Hq Hne), call_tool_body_run.
    rewrite Hconn, Hexec. cbv zeta. rewrite dispatch_classify.
    rewrite read_branch_trace by assumption. reflexivity. }
  split; [exact Ht|].
  rewrite Ht. simpl. intros [H|[H|[H|[H|[H|[]]]]]]; discriminate H.
Qed.

Lemma X10_witness :
  snd (run (call_tool (W_shop cursor_users) "execute_sql" (args_of query_select_users)))
  = [EvConnect config_shop; EvExecute query_select_users; EvFetchall;
     EvCursorClose; EvConnClose].
Proof.
  exact (proj1 (X10_reading_branches_never_commit (W_shop cursor_users) config_shop
                  (args_of query_select_users) query_select_users cursor_users
                  eq_refl eq_refl eq_refl eq_refl eq_refl)).
Defined.

(** X11.  No exception leaves a call that passed validation: whatever
    the driver answers (a failing commit or release, a row without a
    first column, a value that is not a string in a listing), [call_tool]
    returns a list of exactly one block, of type "text". *)
Theorem X11_one_text_block_whatever_the_driver_does
  (W : World) (config : Config) (arguments : gmap string arg) (query : string) :
  get_db_config (environ W) = Ret config ->
  arguments !! "query" = Some (AStr query) ->
  query <> EmptyString ->
  exists s,
    fst (run (call_tool W "execute_sql" arguments))
    = Ret [{| type_ := "text"; text := s |}].
Proof.
  intros Hcfg Hq Hne.
  destruct (call_tool_returns_text W config arguments query Hcfg Hq Hne) as [s Hs].
  exists s. exact Hs.
Qed.

Lemma X11_witness :
  exists s,
    fst (run (call_tool (W_shop cursor_users) "execute_sql" (args_of query_show_tables)))
    = Ret [{| type_ := "text"; text := s |}].
Proof.
  exact (X11_one_text_block_whatever_the_driver_does (W_shop cursor_users) config_shop
           (args_of query_show_tables) query_show_tables
           eq_refl eq_refl ltac:(discriminate)).
Defined.

(** ** [list_tools] and [call_tool] *)

(** X12.  The names [list_tools] advertises are the names [call_tool]
    accepts: on a valid configuration a call is refused as an unknown
    tool exactly when its name is not advertised. *)
Theorem X12_advertised_tools_are_the_accepted_ones
  (W : World) (config : Config) (name_ : string) (arguments : gmap string arg) :
  get_db_config (environ W) = Ret config ->
  (run (call_tool W name_ arguments)
   = (Raise (Exn ValueError ("Unknown tool: " +:+ name_)), [])
   <-> ~ In name_ (map tool_name list_tools)).
Proof.
  intros Hcfg. simpl. split.
  - intros Hrun [<- | []].
    unfold run, call_tool in Hrun. unfold mbind, M_bind, bind, lift in Hrun.
    rewrite Hcfg in Hrun. simpl in Hrun.
    destruct (default ANull (arguments !! "query")) as [|[|c q]];
      try discriminate Hrun.
    unfold try_except in Hrun.
    destruct (call_tool_body W config (String c q) []) as [[l|e] t]; discriminate Hrun.
  - intros Hn.
    assert (Hneq : name_ <> "execute_sql") by (intros ->; apply Hn; left; reflexivity).
    unfold run, call_tool. unfold mbind, M_bind, bind, lift. rewrite Hcfg.
    apply String.eqb_neq in Hneq. rewrite Hneq. reflexivity.
Qed.

Lemma X12_witness :
  run (call_tool (W_shop cursor_users) "list_tables" ∅)
  = (Raise (Exn ValueError "Unknown tool: list_tables"), []).
Proof.
  apply (proj2 (X12_advertised_tools_are_the_accepted_ones (W_shop cursor_users)
                  config_shop "list_tables" ∅ eq_refl)).
  simpl. intros [H | []]. discriminate H.
Defined.

(** ** Letter case and surrounding whitespace *)

Lemma upper_char_space (c : ascii) :
  Py.is_space c = true ->
  Py.upper_char c = [N_of_ascii c] /\ is_space_cp (N_of_ascii c) = true.
Proof.
  destruct c as [[] [] [] [] [] [] [] []]; intros H;
    first [discriminate H | split; reflexivity].
Qed.

Lemma upper_char_nonspace (c : ascii) :
  Py.is_space c = false ->
  forallb (fun n => negb (is_space_cp n)) (Py.upper_char c) = true.
Proof.
  destruct c as [[] [] [] [] [] [] [] []]; intros H;
    first [discriminate H | reflexivity].
Qed.

Lemma upper_char_nonempty (c : ascii) : Py.upper_char c <> [].
Proof. destruct c as [[] [] [] [] [] [] [] []]; discriminate. Qed.

Lemma upper_lstrip (s : string) : Py.upper (Py.lstrip s) = ulstrip (Py.upper s).
Proof.
  induction s as [|c s IH]; [reflexivity|].
  simpl. destruct (Py.is_space c) eqn:Hc.
  - destruct (upper_char_space c Hc) as [-> Hn]. simpl. rewrite Hn. exact IH.
  - pose proof (upper_char_nonspace c Hc) as Hn.
    pose proof (upper_char_nonempty c) as Hne.
    simpl. destruct (Py.upper_char c) as [|n l]; [congruence|].
    simpl in Hn. apply andb_true_iff in Hn as [Hn _].
    simpl. apply negb_true_iff in Hn. rewrite Hn. reflexivity.
Qed.

Lemma urstrip_app (l1 l2 : list N) :
  urstrip (l1 ++ l2)
  = match urstrip l2 with
    | [] => urstrip l1
    | r => l1 ++ r
    end.
Proof.
  induction l1 as [|n l1 IH]; simpl.
  - destruct (urstrip l2); reflexivity.
  - rewrite IH. destruct (urstrip l2) as [|m r]; [reflexivity|].
    destruct l1; reflexivity.
Qed.

Lemma urstrip_nonspace (l : list N) :
  forallb (fun n => negb (is_space_cp n)) l = true -> urstrip l = l.
Proof.
  induction l as [|n l IH]; [reflexivity|].
  simpl. intros H. apply andb_true_iff in H as [Hn Hl].
  rewrite (IH Hl). apply negb_true_iff in Hn. rewrite Hn.
  destruct l; reflexivity.
Qed.

Lemma upper_rstrip (s : string) : Py.upper (Py.rstrip s) = urstrip (Py.upper s).
Proof.
  induction s as [|c s IH]; [reflexivity|].
  simpl. rewrite urstrip_app, <- IH.
  destruct (Py.rstrip s) as [|d r].
  - simpl. destruct (Py.is_space c) eqn:Hc.
    + destruct (upper_char_space c Hc) as [-> Hn]. simpl. rewrite Hn. reflexivity.
    + rewrite urstrip_nonspace by (apply upper_char_nonspace, Hc).
      simpl. rewrite app_nil_r. reflexivity.
  - pose proof (upper_char_nonempty d) as Hne.
    simpl. destruct (Py.upper_char d) as [|n l]; [congruence|]. reflexivity.
Qed.

Lemma upper_strip (s : string) : Py.upper (Py.strip s) = ustrip (Py.upper s).
Proof. unfold Py.strip, ustrip. rewrite upper_rstrip, upper_lstrip. reflexivity. Qed.

(** X13.  The branch does not depend on the case of the letters nor on
    whitespace around the query: two queries that are equal once
    upper-cased reach the same branch, also when one of them is wrapped
    in whitespace. *)
Theorem X13_dispatch_ignores_case_and_padding
  (W : World) (config : Config) (cursor : Cursor) (q1 q2 ws1 ws2 : string) :
  Py.upper q1 = Py.upper q2 ->
  Py.all_space ws1 = true ->
  Py.all_space ws2 = true ->
  dispatch W config cursor (ws1 +:+ q1 +:+ ws2) = dispatch W config cursor q2.
Proof.
  intros Hq H1 H2. rewrite !dispatch_classify.
  rewrite strip_pad by assumption.
  rewrite !upper_strip, Hq. reflexivity.
Qed.

Lemma X13_witness :
  dispatch (W_shop cursor_users) config_shop cursor_users query_padded_lower
  = dispatch (W_shop cursor_users) config_shop cursor_users
      "SELECT ID, NAME FROM USERS ;".
Proof.
  exact (X13_dispatch_ignores_case_and_padding (W_shop cursor_users) config_shop
           cursor_users "select id, name from users ;" "SELECT ID, NAME FROM USERS ;"
           (String (ascii_of_nat 10) "  ") "  " eq_refl eq_refl eq_refl).
Defined.

(** ** Keywords *)

Lemma startswith_inv (s : list N) (p : string) :
  Py.startswith s p = true -> exists rest, s = Py.codepoints p ++ rest.
Proof. apply startswith_has_prefix. Qed.

Lemma N_of_ascii_inj (a b : ascii) : N_of_ascii a = N_of_ascii b -> a = b.
Proof.
  intros H. rewrite <- (ascii_N_embedding a), <- (ascii_N_embedding b), H. reflexivity.
Qed.

Lemma prefix_clash (p q : string) (rest : list N) :
  clash p q = true -> Py.startswith (Py.codepoints q ++ rest) p = false.
Proof.
  revert q. induction p as [|a p IH]; intros [|b q] H; try discriminate H.
  simpl in *. destruct (Ascii.eqb a b) eqn:Hab.
  - apply Ascii.eqb_eq in Hab. subst b. rewrite N.eqb_refl. simpl. apply IH, H.
  - apply Ascii.eqb_neq in Hab.
    destruct (N.eqb_spec (N_of_ascii b) (N_of_ascii a)) as [Heq|]; [|reflexivity].
    apply N_of_ascii_inj in Heq. congruence.
Qed.

Lemma prefix_weaken (p q : string) (rest : list N) :
  Py.startswith (Py.codepoints q) p = true ->
  Py.startswith (Py.codepoints q ++ rest) p = true.
Proof.
  revert q. induction p as [|a p IH]; intros q H; [reflexivity|].
  destruct q as [|b q]; [discriminate H|].
  simpl in *. apply andb_true_iff in H as [Hab Hq].
  rewrite Hab. simpl. apply IH, Hq.
Qed.

Ltac settle_prefixes rest :=
  repeat match goal with
         | |- context [Py.startswith (Py.codepoints ?q ++ rest) ?p] =>
             first [ rewrite (prefix_clash p q rest) by reflexivity
                   | rewrite (prefix_weaken p q rest) by reflexivity ]
         end.

(** X14.  Each keyword of the table reaches its own branch: a query
    text that starts with a prefix of a row is classified as that row,
    so no row hides a later one and the order of the rows settles no
    conflict. *)
Theorem X14_every_keyword_reaches_its_branch
  (query_upper : list N) (p : string) (c : category) :
  In (p, c) keyword_branches ->
  Py.startswith query_upper p = true ->
  classify query_upper = c.
Proof.
  intros Hin Hp.
  destruct (startswith_inv query_upper p Hp) as [rest ->]. clear Hp.
  unfold keyword_branches, prefix_table in Hin. simpl in Hin.
  repeat (destruct Hin as [[= <- <-] | Hin];
          [unfold classify; cbn [existsb];
           settle_prefixes rest; rewrite ?orb_true_r; reflexivity|]).
  destruct Hin.
Qed.

Lemma X14_witness : classify (Py.codepoints "DESC users") = Describe.
Proof.
  apply (X14_every_keyword_reaches_its_branch (Py.codepoints "DESC users") "DESC"
           Describe).
  - unfold keyword_branches, prefix_table. simpl. do 4 right. left. reflexivity.
  - reflexivity.
Defined.

(** ** The width of the rule *)

Lemma length_join (sep : string) (l : list string) :
  String.length (Py.join sep l)
  = (list_sum (map String.length l) + (List.length l - 1) * String.length sep)%nat.
Proof.
  induction l as [|x l IH]; [reflexivity|].
  destruct l as [|y l].
  - simpl. lia.
  - change (Py.join sep (x :: y :: l)) with (x +:+ sep +:+ Py.join sep (y :: l)).
    rewrite !string_length_append, IH. simpl. lia.
Qed.

Lemma sum_Z_len (l : list string) :
  sum_Z (map Py.len l) = Z.of_nat (list_sum (map String.length l)).
Proof.
  induction l as [|x l IH]; [reflexivity|].
  change (sum_Z (map Py.len (x :: l))) with (Py.len x + sum_Z (map Py.len l)).
  rewrite IH. unfold Py.len. simpl. lia.
Qed.

(** X15.  The rule of the tabular text is exactly as long as the header
    line above it, for any list of column names: the width formula counts
    the names and the three characters of each separator. *)
Theorem X15_rule_as_wide_as_header (names : list string) :
  Py.len (rule_line names) = Py.len (header_line names).
Proof.
  rewrite rule_line_len. unfold rule_width, header_line, Py.len.
  rewrite length_join, sum_Z_len.
  change (String.length " | ") with 3%nat.
  destruct names as [|x names]; [reflexivity|].
  simpl List.length. lia.
Qed.

(** ** The driver calls of the lister *)

Lemma make_resource_trace (W : World) (r : row) (t : list event) :
  snd (make_resource W r t) = t.
Proof.
  destruct r as [|v rest]; [reflexivity|].
  rewrite make_resource_run. reflexivity.
Qed.

Lemma mapM_make_resource_trace (W : World) (rows : list row) (t : list event) :
  snd (mapM (make_resource W) rows t) = t.
Proof.
  revert t. induction rows as [|r rows IH]; intros t; [reflexivity|].
  simpl. unfold mbind, M_bind, bind.
  pose proof (make_resource_trace W r t) as Hr.
  destruct (make_resource W r t) as [[y|e] t1]; simpl in Hr; subst t1; [|reflexivity].
  specialize (IH t).
  destruct (mapM (make_resource W) rows t) as [[ys|e] t2]; simpl in *; exact IH.
Qed.

(** X16.  The lister only reads.  With a valid configuration it opens
    one connection; when that succeeds it executes the one statement
    "SHOW TABLES", fetches once if the execution succeeded, never
    commits, and releases the cursor and the connection on every path,
    whatever fails in between. *)
Theorem X16_list_resources_driver_calls (W : World) (config : Config) :
  get_db_config (environ W) = Ret config ->
  snd (run (list_resources W))
  = match connect_r W config with
    | Some _ => [EvConnect config]
    | None =>
        match execute_r W "SHOW TABLES" with
        | inl _ =>
            [EvConnect config; EvExecute "SHOW TABLES"; EvCursorClose; EvConnClose]
        | inr _ =>
            [EvConnect config; EvExecute "SHOW TABLES"; EvFetchall;
             EvCursorClose; EvConnClose]
        end
    end.
Proof.
  intros Hcfg.
  rewrite (list_resources_run W config Hcfg).
  assert (Hs : snd (list_resources_body W config [])
               = match connect_r W config with
                 | Some _ => [EvConnect config]
                 | None =>
                     match execute_r W "SHOW TABLES" with
                     | inl _ =>
                         [EvConnect config; EvExecute "SHOW TABLES";
                          EvCursorClose; EvConnClose]
                     | inr _ =>
                         [EvConnect config; EvExecute "SHOW TABLES"; EvFetchall;
                          EvCursorClose; EvConnClose]
                     end
                 end).
  { rewrite list_resources_body_run.
    destruct (connect_r W config) as [e|]; [reflexivity|].
    cbv zeta. rewrite show_tables_run.
    destruct (execute_r W "SHOW TABLES") as [e|cursor]; [reflexivity|].
    destruct (fetchall_r cursor) as [e|rows]; [reflexivity|].
    simpl snd. rewrite mapM_make_resource_trace. reflexivity. }
  destruct (list_resources_body W config []) as [[l|e] t]; exact Hs.
Qed.

Lemma X16_witness :
  snd (run (list_resources W_strict))
  = [EvConnect config_shop; EvExecute "SHOW TABLES"; EvFetchall;
     EvCursorClose; EvConnClose].
Proof.
  exact (X16_list_resources_driver_calls W_strict config_shop eq_refl).
Defined.
